(** * Cache-aside services over Redis: the rate service (src/main.py) and the
      user service (src/users/main.py)

    Both programs are FastAPI applications that keep a module-level
    [redis_client] handle and serve requests by the cache-aside pattern.  The
    embedding below is shallow: every Python function becomes a Rocq function
    of the same name in a small state-and-exception monad, the Redis server is
    a finite map from keys to values with an expiry instant, the SQLite table
    [users(id TEXT PRIMARY KEY, name TEXT)] is a finite map from ids to names,
    and Python floats are IEEE binary64 numbers ([spec_float] at precision 53,
    exponent bound 1024).

    A request runs from start to end on its own: the interleaving of
    concurrent requests is not modelled.  The [print] calls are dropped.
    Redis commands may raise, as decided by the link of the request; SQLite
    raises nothing but the IntegrityError of a taken primary key.  The json
    module, pydantic's serialisation and the upstream HTTP API are parameters
    of the handlers. *)

From Stdlib Require Import ZArith Bool List String Ascii Lia.
From Stdlib Require Import Floats.SpecFloat.
From stdpp Require Import base option gmap strings fin_maps pretty.

Set Warnings "-register-all".
Open Scope Z_scope.

(** ** Python values, exceptions and the monad of a request handler *)

Module Py.

(** The exceptions the two programs can meet.  [HTTPException] is FastAPI's,
    raised by the handlers themselves; the others come from the libraries. *)
Inductive exn : Type :=
| ConnectionError                         (* redis / requests: backend lost *)
| ResponseError                           (* redis: command refused *)
| JSONDecodeError                         (* json.loads / resp.json() *)
| ValidationError                         (* pydantic: building a User *)
| AttributeError                          (* x.get on a non-dict, None.get *)
| TypeError                               (* float times str, unpacking a non-dict *)
| ValueError                              (* format(str, ".2f") *)
| OverflowError                           (* int too large for a float *)
| IntegrityError                          (* sqlite3: primary key clash *)
| HTTPException (status_code : nat) (detail : string).

Inductive result (A : Type) : Type :=
| Ok (a : A)
| Raise (e : exn).
Arguments Ok {A} a.
Arguments Raise {A} e.

(** What [json.loads] and [resp.json()] produce: None, bool, int, float,
    str, list and dict (insertion ordered, string keys). *)
Inductive json : Type :=
| JNull
| JBool (b : bool)
| JInt (n : Z)
| JFloat (x : spec_float)
| JStr (s : string)
| JList (xs : list json)
| JDict (kvs : list (string * json)).

Fixpoint assoc (k : string) (kvs : list (string * json)) : option json :=
  match kvs with
  | [] => None
  | (k', v) :: rest => if String.eqb k k' then Some v else assoc k rest
  end.

(** [d.get(k, default)]: a method of dicts only. *)
Definition dict_get (d : json) (k : string) (default : json) : result json :=
  match d with
  | JDict kvs => Ok (match assoc k kvs with Some v => v | None => default end)
  | _ => Raise AttributeError
  end.

(** An optional str as a JSON value. *)
Definition raw (v : option string) : json :=
  match v with Some text => JStr text | None => JNull end.

(** A handler runs against a state [S] (the module globals and the stores
    behind them).  A raised exception keeps the effects done so far. *)
Definition M (S A : Type) : Type := S -> result A * S.

Definition ret {S A} (a : A) : M S A := fun s => (Ok a, s).
Definition raise {S A} (e : exn) : M S A := fun s => (Raise e, s).
Definition bind {S A B} (m : M S A) (f : A -> M S B) : M S B :=
  fun s => match m s with
           | (Ok a, s') => f a s'
           | (Raise e, s') => (Raise e, s')
           end.
(** [try: m  except Exception: h] *)
Definition try_except {S A} (m : M S A) (h : exn -> M S A) : M S A :=
  fun s => match m s with
           | (Ok a, s') => (Ok a, s')
           | (Raise e, s') => h e s'
           end.
Definition lift {S A} (r : result A) : M S A := fun s => (r, s).

(** [bool(x)] for an optional str, as in [if cached:]: neither None nor
    the empty string. *)
Definition truthy (x : option string) : bool :=
  match x with
  | Some text => negb (String.eqb text "")
  | None => false
  end.

End Py.
Export Py.

Declare Scope py_scope.
Delimit Scope py_scope with py.
Notation "x <- m ;; k" := (bind m (fun x => k))
  (at level 100, m at next level, right associativity) : py_scope.
Notation "m ;; k" := (bind m (fun _ => k))
  (at level 100, right associativity) : py_scope.
Open Scope py_scope.

(** ** The Redis server as the programs use it

    Operations used: GET, SET with EX, DEL and KEYS with a glob pattern.
    A key set at instant [now] with [ex = ttl] is visible while the clock is
    below [now + ttl]. *)

Module Redis.

Record entry : Type := Entry { value : string; expires_at : Z }.

Abbreviation store := (gmap string entry).

(** The condition of the connection during one request: the clock, and
    which commands fail because the connection is lost. *)
Record link : Type := Link {
  now : Z;
  get_raises : bool;
  set_raises : bool;
  delete_raises : bool;
  keys_raises : bool
}.

Definition healthy (t : Z) : link := Link t false false false false.

Definition live (t : Z) (e : entry) : bool := t <? expires_at e.

Definition read (t : Z) (r : store) (k : string) : option string :=
  match r !! k with
  | Some e => if live t e then Some (value e) else None
  | None => None
  end.

Definition get (l : link) (r : store) (k : string) : result (option string) :=
  if get_raises l then Raise ConnectionError else Ok (read (now l) r k).

(** SET k v EX ex: the server refuses an expiry that is not positive. *)
Definition set (l : link) (r : store) (k v : string) (ex : Z) : result store :=
  if set_raises l then Raise ConnectionError
  else if ex <=? 0 then Raise ResponseError
  else Ok (<[k := Entry v (now l + ex)]> r).

Definition delete (l : link) (r : store) (k : string) : result store :=
  if delete_raises l then Raise ConnectionError else Ok (base.delete k r).

(** Glob patterns, with the two wildcards: [*] for any run of characters
    and [?] for any one character. *)
Fixpoint glob (pattern k : string) : bool :=
  match pattern with
  | EmptyString => match k with EmptyString => true | _ => false end
  | String c pattern' =>
      if Ascii.eqb c "*" then
        (fix star (k : string) : bool :=
           glob pattern' k
           || match k with
              | String _ k' => star k'
              | EmptyString => false
              end) k
      else
        match k with
        | String d k' => (Ascii.eqb c "?" || Ascii.eqb c d) && glob pattern' k'
        | EmptyString => false
        end
  end.

(** KEYS pattern: the live keys that match. *)
Definition keys (l : link) (r : store) (pattern : string) : result (list string) :=
  if keys_raises l then Raise ConnectionError
  else Ok (filter (fun k => glob pattern k = true)
                  (fst <$> map_to_list (filter (fun kv => live (now l) kv.2 = true) r))).

(** The handlers reach the server through the global [redis_client], which
    is [None] until startup and after shutdown. *)
Class Client (S : Type) : Type := {
  redis_client : S -> option store;
  with_store : store -> S -> S
}.

Section Commands.
Context {S : Type} `{Client S}.
Variable l : link.

(** [await redis_client.<command>(...)]; on a [None] client the attribute
    lookup itself fails. *)
Definition GET (k : string) : M S (option string) :=
  fun s => match redis_client s with
           | None => (Raise AttributeError, s)
           | Some r => (get l r k, s)
           end.
Definition KEYS (p : string) : M S (list string) :=
  fun s => match redis_client s with
           | None => (Raise AttributeError, s)
           | Some r => (keys l r p, s)
           end.
Definition SET (k v : string) (ex : Z) : M S unit :=
  fun s => match redis_client s with
           | None => (Raise AttributeError, s)
           | Some r => match set l r k v ex with
                       | Ok r' => (Ok tt, with_store r' s)
                       | Raise e => (Raise e, s)
                       end
           end.
Definition DEL (k : string) : M S unit :=
  fun s => match redis_client s with
           | None => (Raise AttributeError, s)
           | Some r => match delete l r k with
                       | Ok r' => (Ok tt, with_store r' s)
                       | Raise e => (Raise e, s)
                       end
           end.
End Commands.

End Redis.

(** ** Python floats: conversion from int, and the ".2f" format *)

Module Float.

Definition mul : spec_float -> spec_float -> spec_float := SFmul 53 1024.

(** [float(n)] for a Python int: nearest binary64, ties to even;
    OverflowError when the int is too large. *)
Definition of_int (n : Z) : result spec_float :=
  match binary_normalize 53 1024 n 0 false with
  | S754_infinity _ => Raise OverflowError
  | x => Ok x
  end.

(** [n / d] to the nearest integer, ties to even ([d] positive). *)
Definition round_half_even (n d : Z) : Z :=
  let q := n / d in
  match 2 * (n mod d) ?= d with
  | Lt => q
  | Gt => q + 1
  | Eq => if Z.even q then q else q + 1
  end.

(** The magnitude [m * 2^e] in hundredths, correctly rounded. *)
Definition hundredths (m : positive) (e : Z) : Z :=
  if 0 <=? e then Z.pos m * 2 ^ e * 100
  else round_half_even (Z.pos m * 100) (2 ^ (- e)).

Definition two_digits (n : Z) : string :=
  if n <? 10 then "0" +:+ pretty n else pretty n.

Definition fixed2 (h : Z) : string :=
  pretty (h / 100) +:+ "." +:+ two_digits (h mod 100).

Definition sign (s : bool) : string := if s then "-" else "".

(** [format(x, ".2f")] *)
Definition format_2f (x : spec_float) : string :=
  match x with
  | S754_nan => "nan"
  | S754_infinity s => sign s +:+ "inf"
  | S754_zero s => sign s +:+ "0.00"
  | S754_finite s m e => sign s +:+ fixed2 (hundredths m e)
  end.

(** The float a JSON value stands for in arithmetic and in a float format:
    floats themselves, ints, and bools (ints in Python); nothing else. *)
Definition of_value (v : json) : result spec_float :=
  match v with
  | JFloat y => Ok y
  | JInt n => of_int n
  | JBool b => of_int (Z.b2z b)
  | _ => Raise TypeError
  end.

(** [amount * rate] where [rate] came out of a JSON payload. *)
Definition mul_value (amount : spec_float) (rate : json) : result spec_float :=
  match of_value rate with
  | Ok y => Ok (mul amount y)
  | Raise e => Raise e
  end.

(** [f"{v:.2f}"] for a JSON value: a str refuses the format code. *)
Definition format_value_2f (v : json) : result string :=
  match v with
  | JStr _ => Raise ValueError
  | _ => match of_value v with
         | Ok y => Ok (format_2f y)
         | Raise e => Raise e
         end
  end.

End Float.

(** ** The rate service (src/main.py) *)

Module RateService.
Import Redis.

(** The only mutable global is [redis_client]. *)
Abbreviation state := (option store).

#[export] Instance state_client : Client state :=
  {| redis_client s := s; with_store r _ := Some r |}.

(** Startup builds the client for the server at REDIS_URL, whose contents
    are [server]; shutdown closes it and resets the global. *)
Definition startup_event (server : store) : M state unit :=
  fun _ => (Ok tt, Some server).

Definition shutdown_event : M state unit :=
  fun _ => (Ok tt, None).

Section Handlers.
(** Configuration read from the environment at import time. *)
Variable CACHE_TTL : Z.
Variable API_URL : string.
(** The json module. [json_loads] is [None] where json.loads raises. *)
Variable json_dumps : json -> string.
Variable json_loads : string -> option json.
(** The world during one request: the Redis link and the upstream API,
    [http_get url] standing for [get(url).json()]. *)
Variable l : link.
Variable http_get : string -> result json.

Definition loads (text : string) : M state json :=
  match json_loads text with
  | Some v => ret v
  | None => raise JSONDecodeError
  end.

Definition get_cached_rate (base_currency : string) : M state json :=
  fun s =>
    match redis_client s with
    | None => lift (http_get (API_URL +:+ base_currency)) s
    | Some _ =>
        (let key := "rates:" +:+ base_currency in
         cached <- GET l key ;;
         hit <- match cached with
                | Some text =>
                    if String.eqb text "" then ret None
                    else try_except
                           (v <- loads text ;; ret (Some v))
                           (fun _ => DEL l key ;; ret None)
                | None => ret None
                end ;;
         match hit with
         | Some v => ret v
         | None =>
             data <- lift (http_get (API_URL +:+ base_currency)) ;;
             try_except (SET l key (json_dumps data) CACHE_TTL)
                        (fun _ => ret tt) ;;
             ret data
         end) s
    end.

Definition rate_of (data : json) (currency : string) : M state json :=
  rates <- lift (dict_get data "rates" (JDict [])) ;;
  lift (dict_get rates currency JNull).

Definition error_payload : json :=
  JDict [("error", JStr "Rate not available")].

Definition get_cotacao_dolar : M state json :=
  data <- get_cached_rate "USD" ;;
  brl <- rate_of data "BRL" ;;
  match brl with
  | JNull => ret error_payload
  | _ => text <- lift (Float.format_value_2f brl) ;;
         ret (JDict [("cotacao", JStr ("R$" +:+ text))])
  end.

Definition convert_brl_to_usd (amount : spec_float) : M state json :=
  data <- get_cached_rate "BRL" ;;
  usd_rate <- rate_of data "USD" ;;
  match usd_rate with
  | JNull => ret error_payload
  | _ => converted_amount <- lift (Float.mul_value amount usd_rate) ;;
         ret (JDict [("converted_amount",
                      JStr ("$" +:+ Float.format_2f converted_amount))])
  end.

Definition convert_usd_to_brl (amount : spec_float) : M state json :=
  data <- get_cached_rate "USD" ;;
  brl_rate <- rate_of data "BRL" ;;
  match brl_rate with
  | JNull => ret error_payload
  | _ => converted_amount <- lift (Float.mul_value amount brl_rate) ;;
         ret (JDict [("converted_amount",
                      JStr ("R$" +:+ Float.format_2f converted_amount))])
  end.

(** [asyncio.gather] over one GET per key. *)
Fixpoint gather_get (ks : list string) : M state (list (option string)) :=
  match ks with
  | [] => ret []
  | k :: rest => v <- GET l k ;; vs <- gather_get rest ;; ret (v :: vs)
  end.

Definition get_cache : M state json :=
  fun s =>
    match redis_client s with
    | None => ret (JDict [("error", JStr "Redis not connected")]) s
    | Some _ =>
        (ks <- KEYS l "rates:*" ;;
         match ks with
         | [] => ret (JDict [("cached_rates", JDict [])])
         | _ => values <- gather_get ks ;;
                ret (JDict [("cached_rates",
                             JDict (zip ks (raw <$> values)))])
         end) s
    end.

End Handlers.
End RateService.

(** ** The user service (src/users/main.py) *)

Module UserService.
Import Redis.

(** The pydantic models; the one field of UpdateUser is [name] in the
    source. *)
Record User : Type := mkUser { id : string; name : string }.
Record UpdateUser : Type := mkUpdateUser { update_name : string }.

(** The globals: [redis_client], and the SQLite file behind [repo], whose
    one table maps the primary key [id] to [name]. *)
Record state : Type := State {
  client : option store;
  users : gmap string string
}.

#[export] Instance state_client : Client state :=
  {| redis_client := client; with_store r s := State (Some r) (users s) |}.

(** The dict both the repository and [json.loads] hand to [User]. *)
Definition row (user_id name : string) : json :=
  JDict [("id", JStr user_id); ("name", JStr name)].

(** What FastAPI sends for a handler's outcome: the route's status code
    with the returned content, an HTTPException's own status and detail,
    and 500 for any other exception. *)
Inductive response (A : Type) : Type :=
| Response (status_code : nat) (content : A)
| ErrorResponse (status_code : nat) (detail : string)
| InternalServerError.
Arguments Response {A} status_code content.
Arguments ErrorResponse {A} status_code detail.
Arguments InternalServerError {A}.

Definition respond {A} (status_code : nat) (m : M state A) (s : state)
  : response A * state :=
  match m s with
  | (Ok a, s') => (Response status_code a, s')
  | (Raise (HTTPException c d), s') => (ErrorResponse c d, s')
  | (Raise _, s') => (InternalServerError, s')
  end.

(** Startup builds the client for the server at REDIS_URL, whose contents
    are [server], and makes sure the table exists; shutdown closes the
    client and resets the global. *)
Definition startup_event (server : store) : M state unit :=
  fun s => (Ok tt, State (Some server) (users s)).

Definition shutdown_event : M state unit :=
  fun s => (Ok tt, State None (users s)).

Module UserRepository.

Definition get_user (user_id : string) : M state (option json) :=
  fun s => (Ok (row user_id <$> users s !! user_id), s).

(** INSERT OR IGNORE *)
Definition insert_default_user (user_id default_name : string) : M state json :=
  fun s =>
    (Ok (row user_id default_name),
     match users s !! user_id with
     | Some _ => s
     | None => State (client s) (<[user_id := default_name]> (users s))
     end).

(** Plain INSERT: a taken primary key raises IntegrityError. *)
Definition create_user (user_id name : string) : M state json :=
  fun s =>
    match users s !! user_id with
    | Some _ => (Raise IntegrityError, s)
    | None => (Ok (row user_id name),
               State (client s) (<[user_id := name]> (users s)))
    end.

(** UPDATE ... WHERE id = ?; [None] when rowcount is 0. *)
Definition update_user (user_id name : string) : M state (option json) :=
  fun s =>
    match users s !! user_id with
    | Some _ => (Ok (Some (row user_id name)),
                 State (client s) (<[user_id := name]> (users s)))
    | None => (Ok None, s)
    end.

(** DELETE ... WHERE id = ?; [rowcount > 0]. *)
Definition delete_user (user_id : string) : M state bool :=
  fun s =>
    match users s !! user_id with
    | Some _ => (Ok true, State (client s) (base.delete user_id (users s)))
    | None => (Ok false, s)
    end.

Definition list_users : M state (list json) :=
  fun s => (Ok ((fun kv => row kv.1 kv.2) <$> map_to_list (users s)), s).

End UserRepository.

Section Handlers.
Variable CACHE_TTL : Z.
(** The json module, and pydantic: [User_json u] is [u.json()], and
    [coerce_str] is what the [str] field type makes of a value that is
    not a str ([None] where validation fails). *)
Variable json_loads : string -> option json.
Variable User_json : User -> string.
Variable coerce_str : json -> option string.
(** The Redis link during one request. *)
Variable l : link.

Definition validate_str (v : json) : option string :=
  match v with
  | JStr s => Some s
  | _ => coerce_str v
  end.

(** The constructor call with the dict unpacked as keyword arguments:
    both fields are required, other keys are ignored. *)
Definition User_of (data : json) : result User :=
  match data with
  | JDict kvs =>
      match assoc "id" kvs ≫= validate_str, assoc "name" kvs ≫= validate_str with
      | Some i, Some n => Ok (mkUser i n)
      | _, _ => Raise ValidationError
      end
  | _ => Raise TypeError
  end.

(** The body of the try block in get_cached_user: json.loads, then the
    model built from the decoded dict. *)
Definition deserialize (cached : string) : result User :=
  match json_loads cached with
  | Some data => User_of data
  | None => Raise JSONDecodeError
  end.

Definition get_cached_user (user_id : string) : M state (option User) :=
  fun s =>
    match redis_client s with
    | None => ret None s
    | Some _ =>
        (let key := "user:" +:+ user_id in
         cached <- GET l key ;;
         match cached with
         | Some text =>
             if String.eqb text "" then ret None
             else try_except
                    (user <- lift (deserialize text) ;; ret (Some user))
                    (fun _ => DEL l key ;; ret None)
         | None => ret None
         end) s
    end.

Definition cache_user (user : User) : M state unit :=
  fun s =>
    match redis_client s with
    | None => ret tt s
    | Some _ =>
        try_except (SET l ("user:" +:+ id user) (User_json user) CACHE_TTL)
                   (fun _ => ret tt) s
    end.

Definition delete_cached_user (user_id : string) : M state unit :=
  fun s =>
    match redis_client s with
    | None => ret tt s
    | Some _ =>
        try_except (DEL l ("user:" +:+ user_id)) (fun _ => ret tt) s
    end.

Definition get_user (user_id : string) : M state User :=
  cached <- get_cached_user user_id ;;
  match cached with
  | Some user => ret user
  | None =>
      found <- UserRepository.get_user user_id ;;
      db_user <- match found with
                 | Some d => ret d
                 | None => UserRepository.insert_default_user user_id "John Doe"
                 end ;;
      user <- lift (User_of db_user) ;;
      cache_user user ;;
      ret user
  end.

Fixpoint validate_all (ds : list json) : result (list User) :=
  match ds with
  | [] => Ok []
  | d :: rest =>
      match User_of d, validate_all rest with
      | Ok u, Ok us => Ok (u :: us)
      | Raise e, _ => Raise e
      | _, Raise e => Raise e
      end
  end.

Definition list_users : M state (list User) :=
  ds <- UserRepository.list_users ;;
  lift (validate_all ds).

Definition create_user (user : User) : M state User :=
  created <- try_except
               (UserRepository.create_user (id user) (name user))
               (fun e => match e with
                         | IntegrityError =>
                             raise (HTTPException 409 "User already exists")
                         | _ => raise e
                         end) ;;
  created_user <- lift (User_of created) ;;
  cache_user created_user ;;
  ret created_user.

Definition update_user (user_id : string) (update : UpdateUser) : M state User :=
  updated <- UserRepository.update_user user_id (update_name update) ;;
  match updated with
  | None => raise (HTTPException 404 "User not found")
  | Some d =>
      user <- lift (User_of d) ;;
      cache_user user ;;
      ret user
  end.

Definition delete_user (user_id : string) : M state unit :=
  deleted <- UserRepository.delete_user user_id ;;
  if deleted
  then delete_cached_user user_id
  else raise (HTTPException 404 "User not found").

Fixpoint gather_get (ks : list string) : M state (list (option string)) :=
  match ks with
  | [] => ret []
  | k :: rest => v <- GET l k ;; vs <- gather_get rest ;; ret (v :: vs)
  end.

Definition get_cache : M state json :=
  fun s =>
    match redis_client s with
    | None => ret (JDict [("error", JStr "Redis not connected")]) s
    | Some _ =>
        (ks <- KEYS l "user:*" ;;
         match ks with
         | [] => ret (JDict [("cached_users", JDict [])])
         | _ => values <- gather_get ks ;;
                ret (JDict [("cached_users",
                             JDict (zip ks (raw <$> values)))])
         end) s
    end.

(** The routes, with the status codes of their decorators. *)
Definition GET_user (user_id : string) := respond 200 (get_user user_id).
Definition GET_users := respond 200 list_users.
Definition POST_user (user : User) := respond 201 (create_user user).
Definition PUT_user (user_id : string) (update : UpdateUser) :=
  respond 200 (update_user user_id update).
Definition DELETE_user (user_id : string) := respond 204 (delete_user user_id).
Definition GET_cache := respond 200 get_cache.

End Handlers.
End UserService.

(** ** A reference json module

    The handlers above take [json.dumps] and [json.loads] as parameters.  To
    run them on concrete payloads this module gives one implementation of
    the two, for the documents the services exchange: null, true, false,
    ints, floats in plain decimal notation, strings (with the two escapes
    for the quote and the backslash), lists and dicts, printed with the
    separators json.dumps uses by default. *)

Module Json.

Definition dquote : ascii := ascii_of_nat 34.
Definition backslash : ascii := ascii_of_nat 92.

Fixpoint escape (s : string) : string :=
  match s with
  | EmptyString => EmptyString
  | String c rest =>
      if Ascii.eqb c dquote || Ascii.eqb c backslash
      then String backslash (String c (escape rest))
      else String c (escape rest)
  end.

Definition quote (s : string) : string :=
  String dquote (escape s +:+ String dquote EmptyString).

(** Decimal digits of the fraction [n / 10^k], without trailing zeros. *)
Fixpoint fraction (k : nat) (n : Z) : string :=
  match k with
  | O => ""
  | S k' => if n =? 0 then ""
            else pretty (n / 10 ^ Z.of_nat k') +:+ fraction k' (n mod 10 ^ Z.of_nat k')
  end.

(** The exact decimal expansion of [m * 2^e]. *)
Definition decimal (m : positive) (e : Z) : string :=
  if 0 <=? e then pretty (Z.pos m * 2 ^ e) +:+ ".0"
  else let k := Z.to_nat (- e) in
       let n := Z.pos m * 5 ^ (- e) in
       let frac := fraction k (n mod 10 ^ (- e)) in
       pretty (n / 10 ^ (- e)) +:+ "." +:+ (if String.eqb frac "" then "0" else frac).

Definition float_repr (x : spec_float) : string :=
  match x with
  | S754_nan => "NaN"
  | S754_infinity s => Float.sign s +:+ "Infinity"
  | S754_zero s => Float.sign s +:+ "0.0"
  | S754_finite s m e => Float.sign s +:+ decimal m e
  end.

Fixpoint dumps (v : json) : string :=
  match v with
  | JNull => "null"
  | JBool b => if b then "true" else "false"
  | JInt n => pretty n
  | JFloat x => float_repr x
  | JStr s => quote s
  | JList xs => "[" +:+ String.concat ", " (map dumps xs) +:+ "]"
  | JDict kvs =>
      "{" +:+ String.concat ", "
                (map (fun kv => quote (fst kv) +:+ ": " +:+ dumps (snd kv)) kvs)
          +:+ "}"
  end.

(** *** Reading *)

Fixpoint eat (p s : string) : option string :=
  match p, s with
  | EmptyString, _ => Some s
  | String a p', String b s' => if Ascii.eqb a b then eat p' s' else None
  | _, _ => None
  end.

Fixpoint skip_ws (s : string) : string :=
  match s with
  | String c rest => if Ascii.eqb c " " then skip_ws rest else s
  | EmptyString => s
  end.

Definition digit (c : ascii) : option Z :=
  let n := Z.of_N (N_of_ascii c) in
  if (48 <=? n) && (n <=? 57) then Some (n - 48) else None.

(** Leading digits of [s]: their value, how many, and the rest. *)
Fixpoint digits (acc : Z) (count : nat) (s : string) : Z * nat * string :=
  match s with
  | String c rest =>
      match digit c with
      | Some d => digits (10 * acc + d) (S count) rest
      | None => (acc, count, s)
      end
  | EmptyString => (acc, count, s)
  end.

(** The float of the literal [n / 10^k]: exact when both fit a float's
    mantissa, the one case this module reads. *)
Definition float_of_decimal (negative : bool) (n : Z) (k : nat) : option spec_float :=
  if n =? 0 then Some (S754_zero negative)
  else if (n <? 2 ^ 53) && (Nat.leb k 22)
  then Some (SFdiv 53 1024
               (binary_normalize 53 1024 (if negative then - n else n) 0 false)
               (binary_normalize 53 1024 (10 ^ Z.of_nat k) 0 false))
  else None.

Definition number (s : string) : option (json * string) :=
  let (negative, s1) := match eat "-" s with
                        | Some s1 => (true, s1)
                        | None => (false, s)
                        end in
  match digits 0 0 s1 with
  | (_, O, _) => None
  | (n, _, s2) =>
      match eat "." s2 with
      | None => Some (JInt (if negative then - n else n), s2)
      | Some s3 =>
          match digits n 0 s3 with
          | (_, O, _) => None
          | (n', k, s4) =>
              x ← float_of_decimal negative n' k; Some (JFloat x, s4)
          end
      end
  end.

(** The characters of a string literal up to its closing quote. *)
Fixpoint chars (s : string) : option (string * string) :=
  match s with
  | EmptyString => None
  | String c rest =>
      if Ascii.eqb c dquote then Some (EmptyString, rest)
      else if Ascii.eqb c backslash then
        match rest with
        | String c' rest' =>
            if Ascii.eqb c' dquote || Ascii.eqb c' backslash
            then '(t, r) ← chars rest'; Some (String c' t, r)
            else None
        | EmptyString => None
        end
      else '(t, r) ← chars rest; Some (String c t, r)
  end.

Definition literal (s : string) : option (json * string) :=
  match eat "null" s, eat "true" s, eat "false" s with
  | Some r, _, _ => Some (JNull, r)
  | _, Some r, _ => Some (JBool true, r)
  | _, _, Some r => Some (JBool false, r)
  | _, _, _ =>
      match eat "NaN" s, eat "Infinity" s, eat "-Infinity" s with
      | Some r, _, _ => Some (JFloat S754_nan, r)
      | _, Some r, _ => Some (JFloat (S754_infinity false), r)
      | _, _, Some r => Some (JFloat (S754_infinity true), r)
      | _, _, _ => number s
      end
  end.

Fixpoint value (fuel : nat) (s : string) {struct fuel} : option (json * string) :=
  match fuel with
  | O => None
  | S fuel' =>
      let s := skip_ws s in
      match s with
      | String c rest =>
          if Ascii.eqb c dquote then '(t, r) ← chars rest; Some (JStr t, r)
          else if Ascii.eqb c "[" then
            match eat "]" (skip_ws rest) with
            | Some r => Some (JList [], r)
            | None => '(xs, r) ← elements fuel' rest; Some (JList xs, r)
            end
          else if Ascii.eqb c "{" then
            match eat "}" (skip_ws rest) with
            | Some r => Some (JDict [], r)
            | None => '(kvs, r) ← members fuel' rest; Some (JDict kvs, r)
            end
          else literal s
      | EmptyString => None
      end
  end
with elements (fuel : nat) (s : string) {struct fuel} : option (list json * string) :=
  match fuel with
  | O => None
  | S fuel' =>
      '(x, r) ← value fuel' s;
      let r := skip_ws r in
      match eat "," r, eat "]" r with
      | Some r', _ => '(xs, r'') ← elements fuel' r'; Some (x :: xs, r'')
      | None, Some r' => Some ([x], r')
      | None, None => None
      end
  end
with members (fuel : nat) (s : string) {struct fuel}
  : option (list (string * json) * string) :=
  match fuel with
  | O => None
  | S fuel' =>
      r0 ← eat (String dquote EmptyString) (skip_ws s);
      '(k, r1) ← chars r0;
      r2 ← eat ":" (skip_ws r1);
      '(x, r3) ← value fuel' r2;
      let r3 := skip_ws r3 in
      match eat "," r3, eat "}" r3 with
      | Some r', _ => '(kvs, r'') ← members fuel' r'; Some ((k, x) :: kvs, r'')
      | None, Some r' => Some ([(k, x)], r')
      | None, None => None
      end
  end.

(** [None] where json.loads raises: no value, or text after the value. *)
Definition loads (s : string) : option json :=
  '(v, r) ← value (S (String.length s)) s;
  if String.eqb (skip_ws r) "" then Some v else None.

(** pydantic, first major version: [u.json()] dumps the model's dict. *)
Definition User_json (u : UserService.User) : string :=
  dumps (UserService.row (UserService.id u) (UserService.name u)).

(** pydantic in strict mode: a value that is not a str fails the field. *)
Definition strict_str (v : json) : option string := None.

End Json.

(** ** Concrete runs

    The values the examples below run the services on: the default
    configuration of both programs, a USD snapshot with BRL at 5.0, and two
    users. *)

Module Sample.

Definition CACHE_TTL : Z := 300.
Definition API_URL : string := "https://api.exchangerate-api.com/v4/latest/".

(** 100.0 and 5.0 as binary64 numbers. *)
Definition hundred : spec_float := S754_finite false 7036874417766400 (-46).
Definition five : spec_float := S754_finite false 5629499534213120 (-50).

Definition snapshot : json :=
  JDict [("base", JStr "USD"); ("rates", JDict [("BRL", JFloat five)])].

(** An upstream that knows USD only, and one that is down. *)
Definition upstream (url : string) : result json :=
  if String.eqb url (API_URL +:+ "USD") then Ok snapshot else Raise ConnectionError.
Definition upstream_down (url : string) : result json := Raise ConnectionError.

Definition alice : UserService.User := UserService.mkUser "42" "Alice".
Definition bob : UserService.User := UserService.mkUser "42" "Bob".

(** A link on which every SET raises. *)
Definition read_only (t : Z) : Redis.link := Redis.Link t false true false false.

(** A store whose two entries do not deserialize, and one that holds
    alice as cache_user writes her. *)
Definition corrupt_store : Redis.store :=
  <["rates:USD" := Redis.Entry "not json" 100]>
    (<["user:42" := Redis.Entry "not json" 100]> ∅).
Definition alice_cached : Redis.store :=
  {["user:42" := Redis.Entry (Json.User_json alice) 300]}.

End Sample.

(** ** Vocabulary of the statements about the user service *)

Module Frame.
Import UserService.

(** [s'] differs from [s] at most in the row of [uid] and in the cache
    entry under user:uid; a client is neither gained nor lost. *)
Definition same_elsewhere (uid : string) (s s' : state) : Prop :=
  (forall other, other <> uid -> users s' !! other = users s !! other)
  /\ match client s, client s' with
     | Some r, Some r' => forall k, k <> "user:" +:+ uid -> r' !! k = r !! k
     | None, None => True
     | _, _ => False
     end.

End Frame.
Export Frame.

(** ** More concrete runs *)

Module Scenario.

(** A link on which every command raises. *)
Definition unreachable (t : Z) : Redis.link := Redis.Link t true true true true.

(** A link on which DEL alone raises. *)
Definition no_delete (t : Z) : Redis.link := Redis.Link t false false true false.

(** 0.25 and 5.25 as binary64 numbers. *)
Definition quarter : spec_float := S754_finite false 4503599627370496 (-54).
Definition five_and_a_quarter : spec_float :=
  S754_finite false 5910974510923776 (-50).

(** The USD snapshot once the rate has moved, and an upstream serving it. *)
Definition snapshot_later : json :=
  JDict [("base", JStr "USD"); ("rates", JDict [("BRL", JFloat five_and_a_quarter)])].
Definition upstream_later (url : string) : result json :=
  if String.eqb url (Sample.API_URL +:+ "USD") then Ok snapshot_later
  else Raise ConnectionError.

(** A BRL snapshot, and an upstream that knows BRL only. *)
Definition brl_rates : list (string * json) := [("USD", JFloat quarter)].
Definition brl_snapshot : list (string * json) :=
  [("base", JStr "BRL"); ("rates", JDict brl_rates)].
Definition upstream_brl (url : string) : result json :=
  if String.eqb url (Sample.API_URL +:+ "BRL") then Ok (JDict brl_snapshot)
  else Raise ConnectionError.


(** A store whose USD entry decodes to a list. *)
Definition list_store : Redis.store := {["rates:USD" := Redis.Entry "[1, 2]" 100]}.

(** A live USD entry, a BRL entry that expired at instant 5, and a user
    entry. *)
Definition mixed_store : Redis.store :=
  <["rates:USD" := Redis.Entry "{}" 100]>
    (<["rates:BRL" := Redis.Entry "{}" 5]>
       (<["user:42" := Redis.Entry "{}" 100]> ∅)).

End Scenario.

(** * Properties of the rate service *)

Section RateProperties.
Import Redis RateService.
Variable CACHE_TTL : Z.
Variable API_URL : string.
Variable json_dumps : json -> string.
Variable json_loads : string -> option json.

Local Abbreviation get_cached_rate :=
  (get_cached_rate CACHE_TTL API_URL json_dumps json_loads).
Local Abbreviation convert_usd_to_brl :=
  (convert_usd_to_brl CACHE_TTL API_URL json_dumps json_loads).

Lemma eqb_empty_false text : text <> "" -> String.eqb text "" = false.
Proof. intros Hne. by apply String.eqb_neq. Qed.

Lemma positive_ttl ttl : 0 < ttl -> (ttl <=? 0) = false.
Proof. intros Hpos. by apply Z.leb_gt. Qed.

Lemma read_insert_live t (r : store) k v e :
  t < e -> read t (<[k := Entry v e]> r) k = Some v.
Proof.
  intros Hlt. unfold read, live. rewrite lookup_insert_eq; cbn.
  destruct (Z.ltb_spec t e); [reflexivity | lia].
Qed.

(** Degraded mode: without a client the call is the upstream request. *)
Lemma get_cached_rate_disconnected l http base :
  get_cached_rate l http base None = (http (API_URL +:+ base), None).
Proof. reflexivity. Qed.

(** A hit: the entry is live, not empty and decodes. *)
Lemma get_cached_rate_hit l http base r text v :
  get_raises l = false ->
  read (now l) r ("rates:" +:+ base) = Some text ->
  text <> "" ->
  json_loads text = Some v ->
  get_cached_rate l http base (Some r) = (Ok v, Some r).
Proof.
  intros Hget Hread Hne Hloads.
  unfold RateService.get_cached_rate, bind, GET, get; cbn.
  rewrite Hget, Hread, (eqb_empty_false _ Hne); cbn.
  unfold try_except, bind, loads; cbn. rewrite Hloads. reflexivity.
Qed.

(** No hit: the entry is absent, expired, empty or does not decode.  The
    call fetches and writes; an entry that was read and failed to decode
    has been deleted by then, which shows when SET raises. *)
Lemma get_cached_rate_fetch l http base r data :
  get_raises l = false ->
  delete_raises l = false ->
  (forall text, read (now l) r ("rates:" +:+ base) = Some text ->
                text <> "" -> json_loads text = None) ->
  http (API_URL +:+ base) = Ok data ->
  get_cached_rate l http base (Some r) =
    (Ok data,
     Some (if set_raises l || (CACHE_TTL <=? 0)
           then if truthy (read (now l) r ("rates:" +:+ base))
                then base.delete ("rates:" +:+ base) r else r
           else <["rates:" +:+ base := Entry (json_dumps data) (now l + CACHE_TTL)]> r)).
Proof.
  intros Hget Hdel Hbad Hhttp.
  unfold RateService.get_cached_rate, bind, GET, get; cbn.
  rewrite Hget.
  destruct (read (now l) r ("rates:" +:+ base)) as [text|] eqn:Hread; cbn;
    [destruct (String.eqb_spec text "") as [->|Hne]; cbn|].
  2: { unfold try_except, bind, loads, DEL, SET, delete, set, lift; cbn.
       rewrite (Hbad text eq_refl Hne); cbn. rewrite Hdel, Hhttp; cbn.
       destruct (set_raises l), (CACHE_TTL <=? 0); cbn; try reflexivity.
       by rewrite insert_delete_eq. }
  all: unfold try_except, bind, SET, set, lift, ret; cbn; rewrite Hhttp;
    destruct (set_raises l), (CACHE_TTL <=? 0); reflexivity.
Qed.

(** C1. A warm cache serves what the fresh fetch returned: when a call
    finds no usable entry, fetches [data] and writes it with a positive
    CACHE_TTL, a later call for the same base currency while the entry is
    live (before the write instant plus CACHE_TTL) returns [data] again,
    whatever the upstream would answer by then, and leaves the cache as it
    is; this rests on json.loads inverting json.dumps on [data], and on the
    dumped text not being empty. *)
Theorem warm_cache_returns_fetched_payload
    (base : string) (r : store) (data : json)
    (l0 l1 : link) (http0 http1 : string -> result json) :
  0 < CACHE_TTL ->
  get_raises l0 = false -> delete_raises l0 = false -> set_raises l0 = false ->
  (forall text, read (now l0) r ("rates:" +:+ base) = Some text ->
                text <> "" -> json_loads text = None) ->
  http0 (API_URL +:+ base) = Ok data ->
  json_loads (json_dumps data) = Some data ->
  json_dumps data <> "" ->
  get_raises l1 = false ->
  now l1 < now l0 + CACHE_TTL ->
  let fresh := get_cached_rate l0 http0 base (Some r) in
  let warm := get_cached_rate l1 http1 base (snd fresh) in
  fst fresh = Ok data /\ fst warm = Ok data /\ snd warm = snd fresh.
Proof.
  intros Httl Hget0 Hdel0 Hset0 Hbad Hhttp Hround Hne Hget1 Hlive fresh warm.
  subst fresh warm.
  rewrite (get_cached_rate_fetch l0 http0 base r data Hget0 Hdel0 Hbad Hhttp).
  rewrite Hset0, (positive_ttl _ Httl); cbn [fst snd orb].
  rewrite (get_cached_rate_hit l1 http1 base _ (json_dumps data) data Hget1);
    auto using read_insert_live.
Qed.

(** C4. Without a client, get_cached_rate is the upstream request and
    nothing else, whatever the state of the link: it returns (or raises)
    exactly what the request does, and the client is still [None]
    afterwards. *)
Theorem get_cached_rate_degraded (l : link) (http : string -> result json)
    (base : string) :
  get_cached_rate l http base None = (http (API_URL +:+ base), None).
Proof. apply get_cached_rate_disconnected. Qed.

(** The rate the conversion handlers look up in a snapshot. *)
Lemma rate_of_snapshot kvs rates currency v s :
  assoc "rates" kvs = Some (JDict rates) ->
  assoc currency rates = Some v ->
  rate_of (JDict kvs) currency s = (Ok v, s).
Proof.
  intros Hrates Hcur. unfold rate_of, bind, lift, dict_get.
  rewrite Hrates, Hcur. reflexivity.
Qed.

(** C8. When get_cached_rate("USD") yields a snapshot whose "rates" dict
    has a number under "BRL", the handler answers
    [{"converted_amount": "R$" + format(amount * rate, ".2f")}]; with
    amount 100.0 and rate 5.0 the text is "R$500.00". *)
Theorem convert_usd_to_brl_formats
    (l : link) (http : string -> result json) (s : state)
    (amount rate : spec_float) (kvs rates : list (string * json)) (v : json) :
  fst (get_cached_rate l http "USD" s) = Ok (JDict kvs) ->
  assoc "rates" kvs = Some (JDict rates) ->
  assoc "BRL" rates = Some v ->
  Float.of_value v = Ok rate ->
  fst (convert_usd_to_brl l http amount s) =
    Ok (JDict [("converted_amount",
                JStr ("R$" +:+ Float.format_2f (Float.mul amount rate)))])
  /\ (amount = S754_finite false 7036874417766400 (-46) ->
      rate = S754_finite false 5629499534213120 (-50) ->
      fst (convert_usd_to_brl l http amount s) =
        Ok (JDict [("converted_amount", JStr "R$500.00")])).
Proof.
  intros Hdata Hrates Hbrl Hrate.
  assert (fst (convert_usd_to_brl l http amount s) =
            Ok (JDict [("converted_amount",
                        JStr ("R$" +:+ Float.format_2f (Float.mul amount rate)))]))
    as Hgeneral.
  { unfold RateService.convert_usd_to_brl, bind.
    destruct (get_cached_rate l http "USD" s) as [res s'] eqn:Hcall.
    cbn [fst] in Hdata; subst res.
    rewrite (rate_of_snapshot kvs rates "BRL" v s' Hrates Hbrl).
    unfold Float.mul_value, lift. rewrite Hrate.
    destruct v; cbn in Hrate; try discriminate; reflexivity. }
  split; [exact Hgeneral|].
  intros -> ->. rewrite Hgeneral. reflexivity.
Qed.

(** C2 as stated fails: without a client the debug endpoint answers with
    an error payload, which is neither [{"cached_rates": {}}] nor [{}]. *)
Lemma get_cache_disconnected_is_not_an_empty_mapping :
  fst (get_cache (healthy 0) None) <> Ok (JDict [("cached_rates", JDict [])])
  /\ fst (get_cache (healthy 0) None) <> Ok (JDict []).
Proof. split; cbn; discriminate. Qed.

(** C2, amended. Without a client GET /cache answers
    [{"error": "Redis not connected"}] and touches nothing; the empty
    mapping [{"cached_rates": {}}] is the answer of a connected backend in
    which no live key matches "rates:*". *)
Theorem get_cache_disconnected_reports_error (l : link) :
  get_cache l None = (Ok (JDict [("error", JStr "Redis not connected")]), None)
  /\ forall r, keys l r "rates:*" = Ok [] ->
               get_cache l (Some r) = (Ok (JDict [("cached_rates", JDict [])]), Some r).
Proof.
  split; [reflexivity|]. intros r Hkeys.
  unfold get_cache, bind, KEYS; cbn. rewrite Hkeys. reflexivity.
Qed.

End RateProperties.

(** * Properties of the user service *)

Section UserProperties.
Import Redis UserService.
Variable CACHE_TTL : Z.
Variable json_loads : string -> option json.
Variable User_json : User -> string.
Variable coerce_str : json -> option string.

Local Abbreviation deserialize := (deserialize json_loads coerce_str).
Local Abbreviation get_cached_user := (get_cached_user json_loads coerce_str).
Local Abbreviation cache_user := (cache_user CACHE_TTL User_json).
Local Abbreviation get_user :=
  (get_user CACHE_TTL json_loads User_json coerce_str).
Local Abbreviation GET_user :=
  (GET_user CACHE_TTL json_loads User_json coerce_str).
Local Abbreviation POST_user := (POST_user CACHE_TTL User_json coerce_str).
Local Abbreviation PUT_user := (PUT_user CACHE_TTL User_json coerce_str).

(** The repository's dicts always validate. *)
Lemma User_of_row i n : User_of coerce_str (row i n) = Ok (mkUser i n).
Proof. reflexivity. Qed.

(** cache_user never raises: it writes the entry, or leaves the state alone
    when there is no client or SET raises. *)
Lemma cache_user_spec l u s :
  cache_user l u s =
    (Ok tt,
     match client s with
     | Some r =>
         if set_raises l || (CACHE_TTL <=? 0) then s
         else State (Some (<["user:" +:+ id u := Entry (User_json u) (now l + CACHE_TTL)]> r))
                    (users s)
     | None => s
     end).
Proof.
  unfold UserService.cache_user, try_except, SET, set, ret; cbn.
  destruct (client s) as [r|]; [|reflexivity].
  destruct (set_raises l), (CACHE_TTL <=? 0); reflexivity.
Qed.

(** delete_cached_user never raises either. *)
Lemma delete_cached_user_spec l uid s :
  delete_cached_user l uid s =
    (Ok tt,
     match client s with
     | Some r =>
         if delete_raises l then s
         else State (Some (base.delete ("user:" +:+ uid) r)) (users s)
     | None => s
     end).
Proof.
  unfold delete_cached_user, try_except, DEL, delete, ret; cbn.
  destruct (client s) as [r|]; [|reflexivity].
  destruct (delete_raises l); reflexivity.
Qed.

(** A hit in get_cached_user. *)
Lemma get_cached_user_hit l uid r tbl text u :
  get_raises l = false ->
  read (now l) r ("user:" +:+ uid) = Some text ->
  text <> "" ->
  deserialize text = Ok u ->
  get_cached_user l uid (State (Some r) tbl) = (Ok (Some u), State (Some r) tbl).
Proof.
  intros Hget Hread Hne Hde.
  unfold UserService.get_cached_user, bind, GET, get; cbn.
  rewrite Hget, Hread, (eqb_empty_false _ Hne); cbn.
  unfold try_except, bind, lift; cbn. rewrite Hde. reflexivity.
Qed.

(** No hit in get_cached_user: [None], and an entry that was read and did
    not deserialize is deleted. *)
Lemma get_cached_user_miss l uid r tbl :
  get_raises l = false ->
  delete_raises l = false ->
  (forall text, read (now l) r ("user:" +:+ uid) = Some text ->
                text <> "" -> forall u, deserialize text <> Ok u) ->
  get_cached_user l uid (State (Some r) tbl) =
    (Ok None,
     State (Some (if truthy (read (now l) r ("user:" +:+ uid))
                  then base.delete ("user:" +:+ uid) r else r)) tbl).
Proof.
  intros Hget Hdel Hbad.
  unfold UserService.get_cached_user, bind, GET, get; cbn.
  rewrite Hget.
  destruct (read (now l) r ("user:" +:+ uid)) as [text|] eqn:Hread; cbn;
    [|reflexivity].
  destruct (String.eqb_spec text "") as [->|Hne]; cbn; [reflexivity|].
  unfold try_except, bind, lift, DEL, delete; cbn.
  specialize (Hbad text eq_refl Hne).
  destruct (deserialize text) as [u|e]; [by destruct (Hbad u)|].
  cbn. rewrite Hdel. reflexivity.
Qed.

(** Nothing usable and nothing to delete: the key is absent, expired or
    holds the empty string. *)
Lemma get_cached_user_absent l uid r tbl :
  get_raises l = false ->
  truthy (read (now l) r ("user:" +:+ uid)) = false ->
  get_cached_user l uid (State (Some r) tbl) = (Ok None, State (Some r) tbl).
Proof.
  intros Hget Hfalsy.
  unfold UserService.get_cached_user, bind, GET, get; cbn.
  rewrite Hget.
  destruct (read (now l) r ("user:" +:+ uid)) as [text|]; [|reflexivity].
  cbn in Hfalsy |- *. by destruct (String.eqb text "").
Qed.

Lemma get_cached_user_disconnected l uid tbl :
  get_cached_user l uid (State None tbl) = (Ok None, State None tbl).
Proof. reflexivity. Qed.

(** What GET /user/{id} does once the cache gave nothing: read the row,
    insert the default one when there is none, cache and return. *)
Lemma get_user_after_miss l uid s s' :
  get_cached_user l uid s = (Ok None, s') ->
  get_user l uid s =
    match users s' !! uid with
    | Some n => (Ok (mkUser uid n), snd (cache_user l (mkUser uid n) s'))
    | None =>
        (Ok (mkUser uid "John Doe"),
         snd (cache_user l (mkUser uid "John Doe")
                (State (client s') (<[uid := "John Doe"]> (users s')))))
    end.
Proof.
  intros Hmiss.
  unfold UserService.get_user, bind. rewrite Hmiss.
  unfold UserRepository.get_user, UserRepository.insert_default_user, lift, ret.
  destruct s' as [c tbl]; cbn [users client].
  destruct (tbl !! uid) as [n|] eqn:Hrow;
    cbn [fmap option_fmap option_map users client];
    rewrite ?Hrow, User_of_row, !cache_user_spec; reflexivity.
Qed.


Lemma respond_Ok {A} code (m : M state A) s a s' :
  m s = (Ok a, s') -> respond code m s = (Response code a, s').
Proof. intros Hm. unfold respond. by rewrite Hm. Qed.

Lemma read_delete t (r : store) k : read t (base.delete k r) k = None.
Proof. unfold read. by rewrite lookup_delete_eq. Qed.

(** C5. POST /user with an id the table already has answers 409 and
    leaves the table (the row with its id and name) and the cache as they
    were; with a fresh id it inserts the row, runs cache_user on it (which
    writes the entry user:id with the TTL when a client is there and SET
    does not raise: the link holds and the TTL is positive) and answers 201
    with the user. *)
Theorem POST_user_conflict_or_created (l : link) (user : User) (s : state) :
  (forall n, users s !! id user = Some n ->
             POST_user l user s = (ErrorResponse 409 "User already exists", s))
  /\ (users s !! id user = None ->
      POST_user l user s =
        (Response 201 user,
         State (match client s with
                | Some r =>
                    Some (if set_raises l || (CACHE_TTL <=? 0) then r
                          else <["user:" +:+ id user :=
                                   Entry (User_json user) (now l + CACHE_TTL)]> r)
                | None => None
                end)
               (<[id user := name user]> (users s)))).
Proof.
  split.
  - intros n Hrow.
    unfold UserService.POST_user, respond, create_user, bind, try_except,
      UserRepository.create_user.
    rewrite Hrow. reflexivity.
  - intros Hrow.
    apply respond_Ok.
    unfold create_user, bind, try_except, UserRepository.create_user, lift, ret.
    rewrite Hrow, User_of_row, cache_user_spec.
    destruct user as [i n], s as [[r|] tbl]; cbn;
      [destruct (set_raises l), (CACHE_TTL <=? 0)|]; reflexivity.
Qed.

(** C6. PUT /user/{id} for an id the table does not have answers 404 and
    leaves the table and the cache (the entry user:id included) as they
    were; for an id it has, the row's name is replaced, cache_user
    overwrites the entry user:id with the updated user, and the answer is
    that user. *)
Theorem PUT_user_missing_or_updated
    (l : link) (user_id : string) (update : UpdateUser) (s : state) :
  (users s !! user_id = None ->
   PUT_user l user_id update s = (ErrorResponse 404 "User not found", s))
  /\ (forall n, users s !! user_id = Some n ->
      let user := mkUser user_id (update_name update) in
      PUT_user l user_id update s =
        (Response 200 user,
         State (match client s with
                | Some r =>
                    Some (if set_raises l || (CACHE_TTL <=? 0) then r
                          else <["user:" +:+ user_id :=
                                   Entry (User_json user) (now l + CACHE_TTL)]> r)
                | None => None
                end)
               (<[user_id := update_name update]> (users s)))).
Proof.
  split.
  - intros Hrow.
    unfold UserService.PUT_user, respond, update_user, bind,
      UserRepository.update_user.
    rewrite Hrow. reflexivity.
  - intros n Hrow user. subst user.
    apply respond_Ok.
    unfold update_user, bind, UserRepository.update_user, lift, ret.
    rewrite Hrow, User_of_row, cache_user_spec.
    destruct s as [[r|] tbl]; cbn;
      [destruct (set_raises l), (CACHE_TTL <=? 0)|]; reflexivity.
Qed.

(** C7. After a DELETE /user/{id} that found the row (204, row gone, and
    the cache entry gone since DEL did not raise), GET /user/{id} answers
    with the default user, id and "John Doe", whatever name the deleted row
    had, and the table holds that default row again. *)
Theorem DELETE_then_GET_provisions_default
    (l1 l2 : link) (user_id : string) (s : state) (n : string) :
  users s !! user_id = Some n ->
  delete_raises l1 = false ->
  get_raises l2 = false ->
  let deleted := DELETE_user l1 user_id s in
  let fetched := GET_user l2 user_id (snd deleted) in
  fst deleted = Response 204 tt
  /\ users (snd deleted) !! user_id = None
  /\ (forall r, client (snd deleted) = Some r -> r !! ("user:" +:+ user_id) = None)
  /\ fst fetched = Response 200 (mkUser user_id "John Doe")
  /\ users (snd fetched) !! user_id = Some "John Doe".
Proof.
  intros Hrow Hdel Hget deleted fetched.
  assert (deleted =
            (Response 204 tt,
             State (base.delete ("user:" +:+ user_id) <$> client s)
                   (base.delete user_id (users s)))) as Hdeleted.
  { subst deleted. apply respond_Ok.
    unfold delete_user, bind, UserRepository.delete_user.
    rewrite Hrow, delete_cached_user_spec; cbn [client users].
    destruct (client s) as [r|]; cbn; [rewrite Hdel|]; reflexivity. }
  subst fetched. rewrite Hdeleted; cbn [fst snd users client].
  split; [reflexivity|].
  split; [apply lookup_delete_eq|].
  split.
  { intros r Hr. destruct (client s) as [r0|]; [|discriminate].
    injection Hr as <-. apply lookup_delete_eq. }
  assert (exists s1,
            get_cached_user l2 user_id
              (State (base.delete ("user:" +:+ user_id) <$> client s)
                     (base.delete user_id (users s))) = (Ok None, s1)
            /\ users s1 = base.delete user_id (users s)) as (s1 & Hmiss & Htbl).
  { destruct (client s) as [r|]; cbn [fmap option_fmap option_map].
    - eexists; split;
        [apply get_cached_user_absent; [exact Hget | by rewrite read_delete]
        | reflexivity].
    - eexists; split; [apply get_cached_user_disconnected | reflexivity]. }
  unfold UserService.GET_user, respond.
  rewrite (get_user_after_miss _ _ _ _ Hmiss), Htbl, lookup_delete_eq.
  rewrite cache_user_spec; cbn [fst snd client users].
  split; [reflexivity|].
  destruct (client s1); [destruct (set_raises l2), (CACHE_TTL <=? 0)|];
    cbn [users]; apply lookup_insert_eq.
Qed.

(** C10. A hit on GET /user/{id}: when the entry user:id is live, not
    empty and deserializes to a user, the answer is that user and the state
    after the request is the state before it, table and cache alike (the
    entry keeps its value and its expiry instant); the answer is the same
    whatever the table holds. *)
Theorem GET_user_hit_changes_nothing
    (l : link) (user_id : string) (r : store) (tbl : gmap string string)
    (text : string) (user : User) :
  get_raises l = false ->
  read (now l) r ("user:" +:+ user_id) = Some text ->
  text <> "" ->
  deserialize text = Ok user ->
  GET_user l user_id (State (Some r) tbl) = (Response 200 user, State (Some r) tbl)
  /\ forall tbl', fst (GET_user l user_id (State (Some r) tbl')) = Response 200 user.
Proof.
  intros Hget Hread Hne Hde.
  assert (forall t, GET_user l user_id (State (Some r) t) =
                      (Response 200 user, State (Some r) t)) as Hhit.
  { intros t. apply respond_Ok. unfold UserService.get_user, bind.
    by rewrite (get_cached_user_hit l user_id r t text user Hget Hread Hne Hde). }
  split; [apply Hhit|]. intros tbl'. by rewrite Hhit.
Qed.

End UserProperties.

(** * Properties of the cache-aside pattern in both services *)

Section CacheAsideProperties.
Import Redis.
Variable RATES_TTL USERS_TTL : Z.
Variable API_URL : string.
Variable json_dumps : json -> string.
Variable json_loads : string -> option json.
Variable User_json : UserService.User -> string.
Variable coerce_str : json -> option string.

Local Abbreviation get_cached_rate :=
  (RateService.get_cached_rate RATES_TTL API_URL json_dumps json_loads).
Local Abbreviation deserialize := (UserService.deserialize json_loads coerce_str).
Local Abbreviation get_cached_user :=
  (UserService.get_cached_user json_loads coerce_str).
Local Abbreviation cache_user := (UserService.cache_user USERS_TTL User_json).
Local Abbreviation get_user :=
  (UserService.get_user USERS_TTL json_loads User_json coerce_str).

(** C3. A live entry that does not deserialize never reaches the caller;
    it is deleted, and the fetched value replaces it.  With the backend
    answering GET and DEL, and an entry that was read (not the empty
    string, which [if cached:] takes for a miss): get_cached_rate ends as
    the upstream request ends, and the store afterwards is the old one with
    the corrupt entry deleted, whether the upstream answers or raises and
    whether SET answers or raises, with the dumped payload written under
    the key when both answer; get_cached_user returns [None] and leaves the
    store with the entry deleted, and get_user, which calls it, returns the
    row of the table (the default row when there is none) and leaves the
    store with the entry deleted and, when SET answers, that user written
    under the key.  For every corrupt text, the empty string included, a
    call whose upstream request and SET answer returns the fetched value and
    leaves the store with the entry deleted and the fetched value written
    under the key. *)
Theorem corrupt_entry_is_discarded_and_replaced
    (l : link) (r : store) (text : string) :
  get_raises l = false -> delete_raises l = false ->
  (forall base http,
     read (now l) r ("rates:" +:+ base) = Some text ->
     json_loads text = None ->
     (text <> "" ->
      get_cached_rate l http base (Some r) =
        match http (API_URL +:+ base) with
        | Ok data =>
            (Ok data,
             Some (if set_raises l || (RATES_TTL <=? 0)
                   then base.delete ("rates:" +:+ base) r
                   else <["rates:" +:+ base :=
                            Entry (json_dumps data) (now l + RATES_TTL)]>
                          (base.delete ("rates:" +:+ base) r)))
        | Raise e => (Raise e, Some (base.delete ("rates:" +:+ base) r))
        end)
     /\ (forall data,
           http (API_URL +:+ base) = Ok data ->
           set_raises l = false -> 0 < RATES_TTL ->
           get_cached_rate l http base (Some r) =
             (Ok data,
              Some (<["rates:" +:+ base :=
                       Entry (json_dumps data) (now l + RATES_TTL)]>
                      (base.delete ("rates:" +:+ base) r)))))
  /\ (forall user_id tbl,
        read (now l) r ("user:" +:+ user_id) = Some text ->
        (forall u, deserialize text <> Ok u) ->
        let user := UserService.mkUser user_id
                      (match tbl !! user_id with
                       | Some n => n
                       | None => "John Doe"
                       end) in
        let tbl' := match tbl !! user_id with
                    | Some _ => tbl
                    | None => <[user_id := "John Doe"]> tbl
                    end in
        fst (get_cached_user l user_id (UserService.State (Some r) tbl)) = Ok None
        /\ (text <> "" ->
            snd (get_cached_user l user_id (UserService.State (Some r) tbl)) =
              UserService.State (Some (base.delete ("user:" +:+ user_id) r)) tbl)
        /\ (text <> "" ->
            get_user l user_id (UserService.State (Some r) tbl) =
              (Ok user,
               UserService.State
                 (Some (if set_raises l || (USERS_TTL <=? 0)
                        then base.delete ("user:" +:+ user_id) r
                        else <["user:" +:+ user_id :=
                                 Entry (User_json user) (now l + USERS_TTL)]>
                               (base.delete ("user:" +:+ user_id) r)))
                 tbl'))
        /\ (set_raises l = false -> 0 < USERS_TTL ->
            get_user l user_id (UserService.State (Some r) tbl) =
              (Ok user,
               UserService.State
                 (Some (<["user:" +:+ user_id :=
                          Entry (User_json user) (now l + USERS_TTL)]>
                         (base.delete ("user:" +:+ user_id) r)))
                 tbl'))).
Proof.
  intros Hget Hdel. split.
  - intros base http Hread Hbad. split.
    + intros Hne.
      unfold RateService.get_cached_rate, bind, try_except, GET, DEL, SET,
        get, delete, set, RateService.loads, lift, ret, raise; cbn.
      rewrite Hget, Hread, (eqb_empty_false _ Hne), Hbad, Hdel; cbn.
      destruct (http (API_URL +:+ base)); cbn; [|reflexivity].
      by destruct (set_raises l), (RATES_TTL <=? 0).
    + intros data Hhttp Hset Hrates.
      rewrite (get_cached_rate_fetch RATES_TTL API_URL json_dumps json_loads
                 l http base r data Hget Hdel); [| |exact Hhttp].
      * by rewrite Hset, (positive_ttl _ Hrates), insert_delete_eq.
      * intros text' Hread' _. congruence.
  - intros user_id tbl Hread Hbad user tbl'. subst user tbl'.
    pose proof (get_cached_user_miss json_loads coerce_str l user_id r tbl
                  Hget Hdel) as Hmiss.
    rewrite Hmiss by (intros text' Hread' _; congruence).
    split; [reflexivity|]. split.
    { intros Hne. cbn [snd]. rewrite Hread. cbn.
      by rewrite (eqb_empty_false _ Hne). }
    rewrite (get_user_after_miss USERS_TTL json_loads User_json coerce_str
               _ _ _ _ (Hmiss ltac:(intros text' Hread' _; congruence))).
    cbn [UserService.users UserService.client].
    split.
    + intros Hne. rewrite Hread. cbn [truthy].
      rewrite (eqb_empty_false _ Hne). cbn [negb].
      destruct (tbl !! user_id) as [n|]; rewrite cache_user_spec;
        cbn [snd UserService.client UserService.users UserService.id];
        by destruct (set_raises l || (USERS_TTL <=? 0)).
    + intros Hset Husers.
      destruct (tbl !! user_id) as [n|];
        rewrite cache_user_spec, Hset, (positive_ttl _ Husers);
        cbn [snd orb UserService.client UserService.users UserService.id];
        destruct (truthy _);
        by rewrite ?insert_delete_eq.
Qed.

(** C9. A SET that raises does not fail the request.  On a miss (nothing
    usable under the key) get_cached_rate still returns the fetched
    payload; cache_user returns normally and leaves the state alone; and
    get_user, once the cache gave nothing, still returns the user. *)
Theorem cache_write_failure_is_swallowed (l : link) :
  set_raises l = true ->
  (forall base http data r,
     get_raises l = false -> delete_raises l = false ->
     (forall text, read (now l) r ("rates:" +:+ base) = Some text ->
                   text <> "" -> json_loads text = None) ->
     http (API_URL +:+ base) = Ok data ->
     fst (get_cached_rate l http base (Some r)) = Ok data)
  /\ (forall user s, cache_user l user s = (Ok tt, s))
  /\ (forall user_id s s',
        get_cached_user l user_id s = (Ok None, s') ->
        fst (get_user l user_id s) =
          Ok (UserService.mkUser user_id
                (match UserService.users s' !! user_id with
                 | Some n => n
                 | None => "John Doe"
                 end))).
Proof.
  intros Hset. split; [|split].
  - intros base http data r Hget Hdel Hbad Hhttp.
    by rewrite (get_cached_rate_fetch RATES_TTL API_URL json_dumps json_loads
                  l http base r data Hget Hdel Hbad Hhttp).
  - intros user s. rewrite cache_user_spec, Hset.
    by destruct (UserService.client s).
  - intros user_id s s' Hmiss.
    rewrite (get_user_after_miss USERS_TTL json_loads User_json coerce_str
               _ _ _ _ Hmiss).
    by destruct (UserService.users s' !! user_id).
Qed.

End CacheAsideProperties.

(** * The theorems at concrete inputs *)

Section Witnesses.
Import Redis Sample.

Local Abbreviation get_cached_rate :=
  (RateService.get_cached_rate CACHE_TTL API_URL Json.dumps Json.loads).
Local Abbreviation convert_usd_to_brl :=
  (RateService.convert_usd_to_brl CACHE_TTL API_URL Json.dumps Json.loads).
Local Abbreviation cache_user := (UserService.cache_user CACHE_TTL Json.User_json).
Local Abbreviation get_user :=
  (UserService.get_user CACHE_TTL Json.loads Json.User_json Json.strict_str).
Local Abbreviation GET_user :=
  (UserService.GET_user CACHE_TTL Json.loads Json.User_json Json.strict_str).
Local Abbreviation POST_user :=
  (UserService.POST_user CACHE_TTL Json.User_json Json.strict_str).
Local Abbreviation PUT_user :=
  (UserService.PUT_user CACHE_TTL Json.User_json Json.strict_str).
Local Abbreviation State := UserService.State.
Local Abbreviation Response := UserService.Response.
Local Abbreviation ErrorResponse := UserService.ErrorResponse.

(** A fetch at instant 0 into an empty store, then a call at instant 299
    with the upstream down. *)
Lemma warm_cache_returns_fetched_payload_witness :
  let fresh := get_cached_rate (healthy 0) upstream "USD" (Some ∅) in
  let warm := get_cached_rate (healthy 299) upstream_down "USD" (snd fresh) in
  fst fresh = Ok snapshot /\ fst warm = Ok snapshot /\ snd warm = snd fresh.
Proof.
  apply (warm_cache_returns_fetched_payload CACHE_TTL API_URL Json.dumps Json.loads
           "USD" ∅ snapshot (healthy 0) (healthy 299) upstream upstream_down);
    try reflexivity.
  - intros text Hread. discriminate Hread.
  - vm_compute. discriminate.
Defined.

(** A store without any rates key, behind a link that works. *)
Lemma get_cache_disconnected_reports_error_witness :
  RateService.get_cache (healthy 0) None =
    (Ok (JDict [("error", JStr "Redis not connected")]), None)
  /\ RateService.get_cache (healthy 0) (Some alice_cached) =
       (Ok (JDict [("cached_rates", JDict [])]), Some alice_cached).
Proof.
  split.
  - apply (proj1 (get_cache_disconnected_reports_error (healthy 0))).
  - apply (proj2 (get_cache_disconnected_reports_error (healthy 0)) alice_cached).
    vm_compute. reflexivity.
Defined.

(** Both corrupt entries are read at instant 0; the table knows alice.
    In the second run the upstream is down: the entry is deleted all the
    same. *)
Lemma corrupt_entry_is_discarded_and_replaced_witness :
  get_cached_rate (healthy 0) upstream "USD" (Some corrupt_store) =
    (Ok snapshot,
     Some (<["rates:USD" := Entry (Json.dumps snapshot) 300]>
             (base.delete "rates:USD" corrupt_store)))
  /\ get_cached_rate (healthy 0) upstream_down "USD" (Some corrupt_store) =
       (Raise ConnectionError, Some (base.delete "rates:USD" corrupt_store))
  /\ get_user (healthy 0) "42" (State (Some corrupt_store) {["42" := "Alice"]}) =
       (Ok alice,
        State (Some (<["user:42" := Entry (Json.User_json alice) 300]>
                       (base.delete "user:42" corrupt_store)))
              {["42" := "Alice"]}).
Proof.
  assert ("not json" <> "") as Hne by discriminate.
  destruct (corrupt_entry_is_discarded_and_replaced
              CACHE_TTL CACHE_TTL API_URL Json.dumps Json.loads
              Json.User_json Json.strict_str
              (healthy 0) corrupt_store "not json" eq_refl eq_refl)
    as [Hrate Huser].
  split; [|split].
  - apply (proj2 (Hrate "USD" upstream eq_refl eq_refl) snapshot); reflexivity.
  - apply (proj1 (Hrate "USD" upstream_down eq_refl eq_refl) Hne).
  - destruct (Huser "42" {["42" := "Alice"]} eq_refl
                ltac:(intros u Hu; vm_compute in Hu; discriminate Hu))
      as (_ & _ & _ & Hreplaced).
    apply Hreplaced; reflexivity.
Defined.

(** 42 is taken by Bob in the first run and free in the second. *)
Lemma POST_user_conflict_or_created_witness :
  POST_user (healthy 0) alice (State (Some ∅) {["42" := "Bob"]}) =
    (ErrorResponse 409 "User already exists", State (Some ∅) {["42" := "Bob"]})
  /\ POST_user (healthy 0) alice (State (Some ∅) ∅) =
       (Response 201 alice, State (Some alice_cached) {["42" := "Alice"]}).
Proof.
  split.
  - apply (proj1 (POST_user_conflict_or_created CACHE_TTL Json.User_json
                    Json.strict_str (healthy 0) alice
                    (State (Some ∅) {["42" := "Bob"]})) "Bob").
    reflexivity.
  - apply (proj2 (POST_user_conflict_or_created CACHE_TTL Json.User_json
                    Json.strict_str (healthy 0) alice (State (Some ∅) ∅))).
    reflexivity.
Defined.

(** 42 is absent in the first run, and Bob's row with alice's stale cache
    entry is not touched by it; in the second run Bob is renamed. *)
Lemma PUT_user_missing_or_updated_witness :
  PUT_user (healthy 0) "42" (UserService.mkUpdateUser "Alice")
    (State (Some alice_cached) {["7" := "Bob"]}) =
    (ErrorResponse 404 "User not found", State (Some alice_cached) {["7" := "Bob"]})
  /\ PUT_user (healthy 0) "42" (UserService.mkUpdateUser "Alice")
       (State (Some ∅) {["42" := "Bob"]}) =
       (Response 200 alice, State (Some alice_cached) {["42" := "Alice"]}).
Proof.
  split.
  - apply (proj1 (PUT_user_missing_or_updated CACHE_TTL Json.User_json
                    Json.strict_str (healthy 0) "42"
                    (UserService.mkUpdateUser "Alice")
                    (State (Some alice_cached) {["7" := "Bob"]}))).
    reflexivity.
  - etransitivity.
    + apply (proj2 (PUT_user_missing_or_updated CACHE_TTL Json.User_json
                      Json.strict_str (healthy 0) "42"
                      (UserService.mkUpdateUser "Alice")
                      (State (Some ∅) {["42" := "Bob"]})) "Bob").
      reflexivity.
    + vm_compute. reflexivity.
Defined.

(** Alice is in the table and in the cache; she is deleted at instant 10
    and asked for at instant 20. *)
Lemma DELETE_then_GET_provisions_default_witness :
  let deleted := UserService.DELETE_user (healthy 10) "42"
                   (State (Some alice_cached) {["42" := "Alice"]}) in
  let fetched := GET_user (healthy 20) "42" (snd deleted) in
  fst deleted = Response 204 tt
  /\ UserService.users (snd deleted) !! "42" = None
  /\ (forall r, UserService.client (snd deleted) = Some r -> r !! "user:42" = None)
  /\ fst fetched = Response 200 (UserService.mkUser "42" "John Doe")
  /\ UserService.users (snd fetched) !! "42" = Some "John Doe".
Proof.
  apply (DELETE_then_GET_provisions_default CACHE_TTL Json.loads Json.User_json
           Json.strict_str (healthy 10) (healthy 20) "42"
           (State (Some alice_cached) {["42" := "Alice"]}) "Alice");
    reflexivity.
Defined.

(** The upstream snapshot has BRL at 5.0; the amount is 100.0. *)
Lemma convert_usd_to_brl_formats_witness :
  fst (convert_usd_to_brl (healthy 0) upstream hundred (Some ∅)) =
    Ok (JDict [("converted_amount", JStr "R$500.00")]).
Proof.
  assert (fst (get_cached_rate (healthy 0) upstream "USD" (Some ∅)) = Ok snapshot)
    as Hsnapshot by (vm_compute; reflexivity).
  apply (proj2 (convert_usd_to_brl_formats CACHE_TTL API_URL Json.dumps Json.loads
                  (healthy 0) upstream (Some ∅) hundred five
                  [("base", JStr "USD"); ("rates", JDict [("BRL", JFloat five)])]
                  [("BRL", JFloat five)] (JFloat five)
                  Hsnapshot eq_refl eq_refl eq_refl));
    reflexivity.
Defined.

(** Every SET raises: the rate call still returns the snapshot, cache_user
    returns, and GET /user's handler still returns alice from the table. *)
Lemma cache_write_failure_is_swallowed_witness :
  fst (get_cached_rate (read_only 0) upstream "USD" (Some ∅)) = Ok snapshot
  /\ cache_user (read_only 0) alice (State (Some ∅) ∅) = (Ok tt, State (Some ∅) ∅)
  /\ fst (get_user (read_only 0) "42" (State (Some ∅) {["42" := "Alice"]})) = Ok alice.
Proof.
  destruct (cache_write_failure_is_swallowed
              CACHE_TTL CACHE_TTL API_URL Json.dumps Json.loads
              Json.User_json Json.strict_str (read_only 0) eq_refl)
    as (Hrate & Hcache & Huser).
  split; [|split].
  - apply (Hrate "USD" upstream snapshot ∅); try reflexivity.
    intros text Hread. discriminate Hread.
  - apply Hcache.
  - assert (UserService.get_cached_user Json.loads Json.strict_str (read_only 0)
              "42" (State (Some ∅) {["42" := "Alice"]})
            = (Ok None, State (Some ∅) {["42" := "Alice"]}))
      as Hmiss by (vm_compute; reflexivity).
    rewrite (Huser "42" _ _ Hmiss). vm_compute. reflexivity.
Defined.

(** The cache holds alice under user:42 while the table says Bob: the
    answer is alice and nothing changes. *)
Lemma GET_user_hit_changes_nothing_witness :
  GET_user (healthy 10) "42" (State (Some alice_cached) {["42" := "Bob"]}) =
    (Response 200 alice, State (Some alice_cached) {["42" := "Bob"]})
  /\ forall tbl', fst (GET_user (healthy 10) "42" (State (Some alice_cached) tbl')) =
                    Response 200 alice.
Proof.
  apply (GET_user_hit_changes_nothing CACHE_TTL Json.loads Json.User_json
           Json.strict_str (healthy 10) "42" alice_cached {["42" := "Bob"]}
           (Json.User_json alice) alice);
    try reflexivity.
  vm_compute. discriminate.
Defined.

End Witnesses.

(** * Runs of the model *)

Section Runs.
Import Redis Sample.

(** The two patterns the services pass to KEYS. *)
Example glob_prefix_patterns :
  glob "rates:*" "rates:USD" = true /\ glob "rates:*" "user:42" = false
  /\ glob "user:*" "user:42" = true /\ glob "user:*" "user" = false.
Proof. repeat split; reflexivity. Qed.

(** The ".2f" format rounds the binary value, ties to even: 0.125, 0.375,
    2.675 (just below the tie in binary64) and -0.001. *)
Example format_2f_rounding :
  Float.format_2f (S754_finite false 4503599627370496 (-55)) = "0.12"
  /\ Float.format_2f (S754_finite false 6755399441055744 (-54)) = "0.38"
  /\ Float.format_2f (S754_finite false 6023564501608038 (-51)) = "2.67"
  /\ Float.format_2f (S754_finite true 4611686018427388 (-62)) = "-0.00".
Proof. repeat split; vm_compute; reflexivity. Qed.

(** The reference json module on the sample snapshot. *)
Example reference_json_round_trip :
  Json.loads (Json.dumps snapshot) = Some snapshot
  /\ Json.loads "not json" = None
  /\ Json.loads "" = None.
Proof. repeat split; vm_compute; reflexivity. Qed.

(** GET /cotacao/dolar in degraded mode. *)
Example get_cotacao_dolar_run :
  RateService.get_cotacao_dolar CACHE_TTL API_URL Json.dumps Json.loads
    (healthy 0) upstream None
  = (Ok (JDict [("cotacao", JStr "R$5.00")]), None).
Proof. vm_compute. reflexivity. Qed.

(** Once the TTL has elapsed the entry is not read any more: the call at
    instant 300 goes to the upstream, which is down. *)
Example expired_entry_is_fetched_again :
  let fresh := RateService.get_cached_rate CACHE_TTL API_URL Json.dumps Json.loads
                 (healthy 0) upstream "USD" (Some ∅) in
  fst (RateService.get_cached_rate CACHE_TTL API_URL Json.dumps Json.loads
         (healthy 300) upstream_down "USD" (snd fresh))
  = Raise ConnectionError.
Proof. vm_compute. reflexivity. Qed.

(** A client that cannot reach its server is not the degraded mode: the
    GET raises and the request fails, the upstream is not asked. *)
Example unreachable_backend_fails_the_request :
  RateService.get_cached_rate CACHE_TTL API_URL Json.dumps Json.loads
    (Link 0 true true true true) upstream "USD" (Some ∅)
  = (Raise ConnectionError, Some ∅).
Proof. vm_compute. reflexivity. Qed.

(** When the DEL of delete_cached_user raises, the entry outlives the row,
    and the next GET /user/42 is served from it. *)
Example failed_cache_delete_leaves_stale_entry :
  let deleted := UserService.DELETE_user (Link 10 false false true false) "42"
                   (UserService.State (Some alice_cached) {["42" := "Alice"]}) in
  fst deleted = UserService.Response 204 tt
  /\ fst (UserService.GET_user CACHE_TTL Json.loads Json.User_json Json.strict_str
            (healthy 20) "42" (snd deleted))
     = UserService.Response 200 alice.
Proof. split; vm_compute; reflexivity. Qed.

End Runs.

(** * Further properties of the rate service *)

Section RateServiceMore.
Import Redis RateService.
Variable CACHE_TTL : Z.
Variable API_URL : string.
Variable json_dumps : json -> string.
Variable json_loads : string -> option json.

Local Abbreviation get_cached_rate :=
  (get_cached_rate CACHE_TTL API_URL json_dumps json_loads).
Local Abbreviation get_cotacao_dolar :=
  (get_cotacao_dolar CACHE_TTL API_URL json_dumps json_loads).
Local Abbreviation convert_brl_to_usd :=
  (convert_brl_to_usd CACHE_TTL API_URL json_dumps json_loads).
Local Abbreviation convert_usd_to_brl :=
  (convert_usd_to_brl CACHE_TTL API_URL json_dumps json_loads).

(** Every way a call on a connected client can end leaves a store that
    differs from the old one at the call's own key only. *)
Lemma get_cached_rate_store l http base r :
  exists r', snd (get_cached_rate l http base (Some r)) = Some r'
             /\ forall k, k <> "rates:" +:+ base -> r' !! k = r !! k.
Proof.
  unfold RateService.get_cached_rate, bind, try_except, GET, DEL, SET,
    get, delete, set, loads, lift, ret, raise; cbn.
  destruct (get_raises l); cbn; [by eexists|].
  destruct (read (now l) r ("rates:" +:+ base)) as [text|]; cbn;
    [destruct (String.eqb text ""); cbn;
     [|destruct (json_loads text); cbn; [by eexists|];
       destruct (delete_raises l); cbn; [by eexists|]]|];
    (destruct (http (API_URL +:+ base)); cbn;
     [destruct (set_raises l); cbn; [|destruct (CACHE_TTL <=? 0); cbn]|]);
    eexists; (split; [reflexivity|]); intros k Hk;
    by rewrite ?lookup_insert_ne, ?lookup_delete_ne.
Qed.

Lemma rate_key_is_no_user_key base user_id :
  "user:" +:+ user_id <> "rates:" +:+ base.
Proof. cbn. discriminate. Qed.

(** X1. get_cached_rate changes no key but its own, "rates:" followed by
    the base currency, however the call ends (hit, fetch, failure of any
    Redis command or of the upstream); in particular the keys of the user
    service, which start with "user:", keep their entries, and a connected
    client stays connected. *)
Theorem get_cached_rate_touches_one_key
    (l : link) (http : string -> result json) (base : string) (r : store) :
  exists r',
    snd (get_cached_rate l http base (Some r)) = Some r'
    /\ (forall k, k <> "rates:" +:+ base -> r' !! k = r !! k)
    /\ (forall user_id, r' !! ("user:" +:+ user_id) = r !! ("user:" +:+ user_id)).
Proof.
  destruct (get_cached_rate_store l http base r) as (r' & Hsnd & Hframe).
  exists r'. split; [exact Hsnd|]. split; [exact Hframe|].
  intros user_id. apply Hframe, rate_key_is_no_user_key.
Qed.

(** X2. Entries expire: after a fetch wrote the payload at instant t0, a
    call at or after t0 + CACHE_TTL does not read it; it asks the upstream
    again, returns the new payload and writes it with a new expiry. *)
Theorem expired_entry_is_refetched
    (base : string) (r : store) (data0 data1 : json)
    (l0 l1 : link) (http0 http1 : string -> result json) :
  0 < CACHE_TTL ->
  get_raises l0 = false -> delete_raises l0 = false -> set_raises l0 = false ->
  (forall text, read (now l0) r ("rates:" +:+ base) = Some text ->
                text <> "" -> json_loads text = None) ->
  http0 (API_URL +:+ base) = Ok data0 ->
  get_raises l1 = false -> set_raises l1 = false ->
  now l0 + CACHE_TTL <= now l1 ->
  http1 (API_URL +:+ base) = Ok data1 ->
  let fresh := get_cached_rate l0 http0 base (Some r) in
  get_cached_rate l1 http1 base (snd fresh) =
    (Ok data1,
     Some (<["rates:" +:+ base := Entry (json_dumps data1) (now l1 + CACHE_TTL)]> r)).
Proof.
  intros Httl Hget0 Hdel0 Hset0 Hbad Hhttp0 Hget1 Hset1 Hlate Hhttp1 fresh.
  subst fresh.
  rewrite (get_cached_rate_fetch CACHE_TTL API_URL json_dumps json_loads
             l0 http0 base r data0 Hget0 Hdel0 Hbad Hhttp0).
  rewrite Hset0, (positive_ttl _ Httl); cbn [snd orb].
  assert (read (now l1)
            (<["rates:" +:+ base := Entry (json_dumps data0) (now l0 + CACHE_TTL)]> r)
            ("rates:" +:+ base) = None) as Hexpired.
  { unfold read, live. rewrite lookup_insert_eq; cbn.
    destruct (Z.ltb_spec (now l1) (now l0 + CACHE_TTL)); [lia | reflexivity]. }
  unfold RateService.get_cached_rate, bind, try_except, GET, SET, get, set,
    lift, ret; cbn.
  rewrite Hget1, Hexpired, Hhttp1, Hset1, (positive_ttl _ Httl); cbn.
  by rewrite insert_insert_eq.
Qed.

(** X3. A client whose server cannot be reached is not the degraded mode:
    when GET raises, get_cached_rate raises ConnectionError without asking
    the upstream, and so do the three rate endpoints; the store is left as
    it was. *)
Theorem unreachable_backend_fails_rate_requests
    (l : link) (http : string -> result json) (r : store)
    (base : string) (amount : spec_float) :
  get_raises l = true ->
  get_cached_rate l http base (Some r) = (Raise ConnectionError, Some r)
  /\ get_cotacao_dolar l http (Some r) = (Raise ConnectionError, Some r)
  /\ convert_brl_to_usd l http amount (Some r) = (Raise ConnectionError, Some r)
  /\ convert_usd_to_brl l http amount (Some r) = (Raise ConnectionError, Some r).
Proof.
  intros Hget.
  assert (forall b, get_cached_rate l http b (Some r) = (Raise ConnectionError, Some r))
    as Hcall.
  { intros b. unfold RateService.get_cached_rate, bind, GET, get; cbn.
    by rewrite Hget. }
  split; [apply Hcall|].
  unfold RateService.get_cotacao_dolar, RateService.convert_brl_to_usd,
    RateService.convert_usd_to_brl, bind.
  by rewrite !Hcall.
Qed.



(** X5. GET /cotacao/dolar: when the USD snapshot has a number under
    "BRL", the answer is [{"cotacao": "R$" + format(rate, ".2f")}]. *)
Theorem get_cotacao_dolar_formats
    (l : link) (http : string -> result json) (s : state)
    (rate : spec_float) (kvs rates : list (string * json)) (v : json) :
  fst (get_cached_rate l http "USD" s) = Ok (JDict kvs) ->
  assoc "rates" kvs = Some (JDict rates) ->
  assoc "BRL" rates = Some v ->
  Float.of_value v = Ok rate ->
  fst (get_cotacao_dolar l http s) =
    Ok (JDict [("cotacao", JStr ("R$" +:+ Float.format_2f rate))]).
Proof.
  intros Hdata Hrates Hbrl Hrate.
  unfold RateService.get_cotacao_dolar, bind.
  destruct (get_cached_rate l http "USD" s) as [res s'].
  cbn [fst] in Hdata; subst res.
  rewrite (rate_of_snapshot kvs rates "BRL" v s' Hrates Hbrl).
  unfold Float.format_value_2f, lift. rewrite Hrate.
  destruct v; cbn in Hrate; try discriminate; reflexivity.
Qed.

(** X6. GET /cotacao/convert/{amount}/brl/usd: when the BRL snapshot has a
    number under "USD", the answer is
    [{"converted_amount": "$" + format(amount * rate, ".2f")}]. *)
Theorem convert_brl_to_usd_formats
    (l : link) (http : string -> result json) (s : state)
    (amount rate : spec_float) (kvs rates : list (string * json)) (v : json) :
  fst (get_cached_rate l http "BRL" s) = Ok (JDict kvs) ->
  assoc "rates" kvs = Some (JDict rates) ->
  assoc "USD" rates = Some v ->
  Float.of_value v = Ok rate ->
  fst (convert_brl_to_usd l http amount s) =
    Ok (JDict [("converted_amount",
                JStr ("$" +:+ Float.format_2f (Float.mul amount rate)))]).
Proof.
  intros Hdata Hrates Husd Hrate.
  unfold RateService.convert_brl_to_usd, bind.
  destruct (get_cached_rate l http "BRL" s) as [res s'].
  cbn [fst] in Hdata; subst res.
  rewrite (rate_of_snapshot kvs rates "USD" v s' Hrates Husd).
  unfold Float.mul_value, lift. rewrite Hrate.
  destruct v; cbn in Hrate; try discriminate; reflexivity.
Qed.

(** X7. An entry that decodes is served whatever its shape.  When the live
    entry under rates:USD decodes to a value that is not a dict, the call
    returns it without asking the upstream, GET /cotacao/dolar and the
    USD to BRL conversion raise AttributeError, and the entry stays in the
    store. *)
Theorem wrong_shape_entry_fails_the_endpoints
    (l : link) (http : string -> result json) (r : store)
    (text : string) (data : json) (amount : spec_float) :
  get_raises l = false ->
  read (now l) r "rates:USD" = Some text ->
  text <> "" ->
  json_loads text = Some data ->
  (forall kvs, data <> JDict kvs) ->
  get_cached_rate l http "USD" (Some r) = (Ok data, Some r)
  /\ get_cotacao_dolar l http (Some r) = (Raise AttributeError, Some r)
  /\ convert_usd_to_brl l http amount (Some r) = (Raise AttributeError, Some r).
Proof.
  intros Hget Hread Hne Hloads Hshape.
  pose proof (get_cached_rate_hit CACHE_TTL API_URL json_dumps json_loads
                l http "USD" r text data Hget Hread Hne Hloads) as Hhit.
  split; [exact Hhit|].
  unfold RateService.get_cotacao_dolar, RateService.convert_usd_to_brl, bind.
  rewrite Hhit.
  destruct data; try (split; reflexivity). by destruct (Hshape kvs).
Qed.

End RateServiceMore.

(** * The debug listings *)

Section Listings.
Import Redis.

Lemma glob_star k : glob "*" k = true.
Proof. induction k as [|c k IH]; [reflexivity|]. cbn in *. exact IH. Qed.

Lemma glob_literal c pattern k :
  c <> "*"%char -> c <> "?"%char ->
  glob (String c pattern) k =
    match k with
    | String d k' => Ascii.eqb c d && glob pattern k'
    | EmptyString => false
    end.
Proof.
  intros Hstar Hany. cbn.
  destruct (Ascii.eqb_spec c "*"); [contradiction|].
  destruct k as [|d k']; [reflexivity|].
  by destruct (Ascii.eqb_spec c "?"); [contradiction|].
Qed.

(** A pattern made of a literal prefix and a final star matches the keys
    that start with the prefix. *)
Lemma glob_prefix_star p k :
  (forall c, In c (list_ascii_of_string p) -> c <> "*"%char /\ c <> "?"%char) ->
  glob (p +:+ "*") k = true <-> exists rest, k = p +:+ rest.
Proof.
  revert k. induction p as [|c p IH]; intros k Hplain.
  - change ("" +:+ "*") with "*". rewrite glob_star. split; [|done].
    intros _. by exists k.
  - change (String c p +:+ "*") with (String c (p +:+ "*")).
    destruct (Hplain c (or_introl eq_refl)) as [Hstar Hany].
    rewrite (glob_literal c _ k Hstar Hany).
    destruct k as [|d k'].
    + split; [discriminate | intros [rest Hrest]; discriminate Hrest].
    + rewrite andb_true_iff, IH by (intros c' Hc'; apply Hplain; by right).
      destruct (Ascii.eqb_spec c d) as [->|Hcd]; split.
      * intros [_ [rest ->]]. by exists rest.
      * intros [rest Hrest].
        change (String d p +:+ rest) with (String d (p +:+ rest)) in Hrest.
        injection Hrest as ->. eauto.
      * intros [? _]. discriminate.
      * intros [rest Hrest].
        change (String c p +:+ rest) with (String c (p +:+ rest)) in Hrest.
        injection Hrest as ? _. by destruct Hcd.
Qed.

Lemma glob_rates k : glob "rates:*" k = true <-> exists rest, k = "rates:" +:+ rest.
Proof.
  apply (glob_prefix_star "rates:").
  intros c Hc; cbn in Hc; intuition (subst; discriminate).
Qed.

Lemma glob_user k : glob "user:*" k = true <-> exists rest, k = "user:" +:+ rest.
Proof.
  apply (glob_prefix_star "user:").
  intros c Hc; cbn in Hc; intuition (subst; discriminate).
Qed.

(** What KEYS returns: each live matching key, once. *)
Lemma elem_of_keys l (r : store) pattern ks k :
  keys l r pattern = Ok ks ->
  k ∈ ks <-> glob pattern k = true
             /\ exists e, r !! k = Some e /\ now l < expires_at e.
Proof.
  unfold keys. destruct (keys_raises l); [discriminate|].
  intros [= <-]. rewrite list_elem_of_filter, list_elem_of_fmap.
  apply and_iff_compat_l. split.
  - intros ([k' e] & -> & Hin).
    apply elem_of_map_to_list, map_lookup_filter_Some in Hin as [Hlook Hlive].
    exists e. split; [exact Hlook|]. cbn in Hlive. unfold live in Hlive. lia.
  - intros (e & Hlook & Hlive). exists (k, e). split; [reflexivity|].
    apply elem_of_map_to_list, map_lookup_filter_Some. split; [exact Hlook|].
    cbn. unfold live. lia.
Qed.

Lemma NoDup_keys l (r : store) pattern ks : keys l r pattern = Ok ks -> NoDup ks.
Proof.
  unfold keys. destruct (keys_raises l); [discriminate|].
  intros [= <-]. apply NoDup_filter, NoDup_fst_map_to_list.
Qed.

Lemma zip_fmap_self {A B} (f : A -> B) (xs : list A) :
  zip xs (f <$> xs) = (fun x => (x, f x)) <$> xs.
Proof. induction xs as [|x xs IH]; [reflexivity|]. cbn. by rewrite IH. Qed.

Lemma rate_gather_get l (r : store) ks :
  get_raises l = false ->
  RateService.gather_get l ks (Some r) = (Ok (read (now l) r <$> ks), Some r).
Proof.
  intros Hget. induction ks as [|k ks IH]; [reflexivity|].
  cbn [RateService.gather_get]. unfold bind, GET, get; cbn.
  rewrite Hget. unfold bind in IH. cbn in IH. by rewrite IH.
Qed.

Lemma user_gather_get l (r : store) tbl ks :
  get_raises l = false ->
  UserService.gather_get l ks (UserService.State (Some r) tbl) =
    (Ok (read (now l) r <$> ks), UserService.State (Some r) tbl).
Proof.
  intros Hget. induction ks as [|k ks IH]; [reflexivity|].
  cbn [UserService.gather_get]. unfold bind, GET, get; cbn.
  rewrite Hget. unfold bind in IH. cbn in IH. by rewrite IH.
Qed.

(** The entries a listing shows for the keys KEYS returned. *)
Lemma elem_of_listing l (r : store) pattern ks k v :
  keys l r pattern = Ok ks ->
  (k, v) ∈ zip ks (raw <$> (read (now l) r <$> ks)) <->
    glob pattern k = true
    /\ exists e, r !! k = Some e /\ now l < expires_at e /\ v = JStr (value e).
Proof.
  intros Hkeys. rewrite <- list_fmap_compose, zip_fmap_self, list_elem_of_fmap.
  split.
  - intros (k' & [= -> ->] & Hin).
    apply (elem_of_keys l r pattern ks k' Hkeys) in Hin as (Hglob & e & Hlook & Hlive).
    split; [exact Hglob|]. exists e. repeat split; try done.
    cbn. unfold read, live. rewrite Hlook.
    by destruct (Z.ltb_spec (now l) (expires_at e)); [|lia].
  - intros (Hglob & e & Hlook & Hlive & ->). exists k. split.
    + cbn. unfold read, live. rewrite Hlook.
      by destruct (Z.ltb_spec (now l) (expires_at e)); [|lia].
    + apply (elem_of_keys l r pattern ks k Hkeys). eauto.
Qed.

(** X8. GET /cache of the rate service, on a link where KEYS and GET
    answer: the payload is [{"cached_rates": listing}] where the listing
    has one pair per live key that starts with "rates:", the key with the
    raw text stored under it, no key twice; keys of other prefixes and
    expired entries are not shown, and the store is not changed. *)
Theorem rate_get_cache_lists_live_rate_keys (l : link) (r : store) :
  keys_raises l = false ->
  get_raises l = false ->
  exists listing,
    RateService.get_cache l (Some r) =
      (Ok (JDict [("cached_rates", JDict listing)]), Some r)
    /\ NoDup (listing.*1)
    /\ forall k v,
         (k, v) ∈ listing <->
           (exists rest, k = "rates:" +:+ rest)
           /\ exists e, r !! k = Some e /\ now l < expires_at e /\ v = JStr (value e).
Proof.
  intros Hkeys Hget.
  destruct (keys l r "rates:*") as [ks|e] eqn:Hks;
    [|unfold keys in Hks; rewrite Hkeys in Hks; discriminate].
  exists (zip ks (raw <$> (read (now l) r <$> ks))).
  split; [|split].
  - unfold RateService.get_cache, bind, KEYS; cbn. rewrite Hks.
    destruct ks as [|k ks]; [reflexivity|].
    by rewrite (rate_gather_get l r (k :: ks) Hget).
  - rewrite fst_zip by (by rewrite !length_fmap).
    exact (NoDup_keys l r _ ks Hks).
  - intros k v. rewrite (elem_of_listing l r _ ks k v Hks), glob_rates. done.
Qed.

(** X9. GET /cache of the user service, likewise: with a client, KEYS and
    GET answering, the payload is [{"cached_users": listing}] with one pair
    per live key that starts with "user:"; neither the store nor the table
    is changed.  Without a client the payload is the error message. *)
Theorem user_get_cache_lists_live_user_keys
    (l : link) (r : store) (tbl : gmap string string) :
  UserService.get_cache l (UserService.State None tbl) =
    (Ok (JDict [("error", JStr "Redis not connected")]), UserService.State None tbl)
  /\ (keys_raises l = false ->
      get_raises l = false ->
      exists listing,
        UserService.get_cache l (UserService.State (Some r) tbl) =
          (Ok (JDict [("cached_users", JDict listing)]),
           UserService.State (Some r) tbl)
        /\ NoDup (listing.*1)
        /\ forall k v,
             (k, v) ∈ listing <->
               (exists rest, k = "user:" +:+ rest)
               /\ exists e, r !! k = Some e /\ now l < expires_at e
                            /\ v = JStr (value e)).
Proof.
  split; [reflexivity|]. intros Hkeys Hget.
  destruct (keys l r "user:*") as [ks|e] eqn:Hks;
    [|unfold keys in Hks; rewrite Hkeys in Hks; discriminate].
  exists (zip ks (raw <$> (read (now l) r <$> ks))).
  split; [|split].
  - unfold UserService.get_cache, bind, KEYS; cbn. rewrite Hks.
    destruct ks as [|k ks]; [reflexivity|].
    by rewrite (user_gather_get l r tbl (k :: ks) Hget).
  - rewrite fst_zip by (by rewrite !length_fmap).
    exact (NoDup_keys l r _ ks Hks).
  - intros k v. rewrite (elem_of_listing l r _ ks k v Hks), glob_user. done.
Qed.

Lemma rate_get_cache_run l (r : store) ks :
  get_raises l = false ->
  keys l r "rates:*" = Ok ks ->
  RateService.get_cache l (Some r) =
    (Ok (JDict [("cached_rates", JDict (zip ks (raw <$> (read (now l) r <$> ks))))]),
     Some r).
Proof.
  intros Hget Hks. unfold RateService.get_cache, bind, KEYS; cbn. rewrite Hks.
  destruct ks as [|k ks]; [reflexivity|].
  by rewrite (rate_gather_get l r (k :: ks) Hget).
Qed.

(** X21. What a fetch wrote shows in the listing: after a call of
    get_cached_rate that found nothing usable, fetched a payload and wrote
    it, GET /cache before the expiry lists the key rates:base with the
    dumped payload as its raw value. *)
Theorem fetched_rates_show_in_the_listing
    (CACHE_TTL : Z) (API_URL : string)
    (json_dumps : json -> string) (json_loads : string -> option json)
    (base : string) (r : store) (data : json)
    (l0 l1 : link) (http : string -> result json) :
  0 < CACHE_TTL ->
  get_raises l0 = false -> delete_raises l0 = false -> set_raises l0 = false ->
  (forall text, read (now l0) r ("rates:" +:+ base) = Some text ->
                text <> "" -> json_loads text = None) ->
  http (API_URL +:+ base) = Ok data ->
  keys_raises l1 = false -> get_raises l1 = false ->
  now l1 < now l0 + CACHE_TTL ->
  let fresh := RateService.get_cached_rate CACHE_TTL API_URL json_dumps json_loads
                 l0 http base (Some r) in
  exists listing,
    RateService.get_cache l1 (snd fresh) =
      (Ok (JDict [("cached_rates", JDict listing)]), snd fresh)
    /\ ("rates:" +:+ base, JStr (json_dumps data)) ∈ listing.
Proof.
  intros Httl Hget0 Hdel0 Hset0 Hbad Hhttp Hkeys1 Hget1 Hlive fresh. subst fresh.
  rewrite (get_cached_rate_fetch CACHE_TTL API_URL json_dumps json_loads
             l0 http base r data Hget0 Hdel0 Hbad Hhttp).
  rewrite Hset0, (positive_ttl _ Httl); cbn [snd orb].
  set (r1 := <["rates:" +:+ base := Entry (json_dumps data) (now l0 + CACHE_TTL)]> r).
  destruct (keys l1 r1 "rates:*") as [ks|e] eqn:Hks;
    [|unfold keys in Hks; rewrite Hkeys1 in Hks; discriminate].
  eexists. split; [exact (rate_get_cache_run l1 r1 ks Hget1 Hks)|].
  apply (elem_of_listing l1 r1 _ ks _ _ Hks). split.
  - apply glob_rates. by exists base.
  - eexists. split; [apply lookup_insert_eq|]. by split.
Qed.

End Listings.

(** * Further properties of the user service *)

Section UserServiceMore.
Import Redis UserService.
Variable CACHE_TTL : Z.
Variable json_loads : string -> option json.
Variable User_json : User -> string.
Variable coerce_str : json -> option string.

Local Abbreviation deserialize := (deserialize json_loads coerce_str).
Local Abbreviation get_cached_user := (get_cached_user json_loads coerce_str).
Local Abbreviation cache_user := (cache_user CACHE_TTL User_json).
Local Abbreviation get_user :=
  (get_user CACHE_TTL json_loads User_json coerce_str).
Local Abbreviation GET_user :=
  (GET_user CACHE_TTL json_loads User_json coerce_str).
Local Abbreviation GET_users := (GET_users coerce_str).
Local Abbreviation POST_user := (POST_user CACHE_TTL User_json coerce_str).
Local Abbreviation PUT_user := (PUT_user CACHE_TTL User_json coerce_str).

(** X10. DELETE /user/{id}: for an id the table does not have the answer
    is 404 and nothing changes, a cache entry under user:id included; for
    an id it has the answer is 204, the row is removed, and the entry
    user:id is removed unless DEL raises, which is swallowed. *)
Theorem DELETE_user_missing_or_removed (l : link) (user_id : string) (s : state) :
  (users s !! user_id = None ->
   DELETE_user l user_id s = (ErrorResponse 404 "User not found", s))
  /\ (forall n, users s !! user_id = Some n ->
      DELETE_user l user_id s =
        (Response 204 tt,
         State (match client s with
                | Some r =>
                    Some (if delete_raises l then r
                          else base.delete ("user:" +:+ user_id) r)
                | None => None
                end)
               (base.delete user_id (users s)))).
Proof.
  split.
  - intros Hrow.
    unfold DELETE_user, respond, delete_user, bind, UserRepository.delete_user.
    rewrite Hrow. reflexivity.
  - intros n Hrow. apply respond_Ok.
    unfold delete_user, bind, UserRepository.delete_user.
    rewrite Hrow, delete_cached_user_spec.
    destruct s as [[r|] tbl]; cbn; [destruct (delete_raises l)|]; reflexivity.
Qed.

(** X11. GET /user/{id} when the cache has nothing usable under user:id
    (absent, expired, empty or not deserializable), GET and DEL answering:
    the answer is 200 with the row of the table, which is left as it is, or,
    when the table has no such row, with the default user John Doe, whose
    row is inserted; when SET answers and the TTL is positive the user is
    written under user:id with expiry now + CACHE_TTL. *)
Theorem GET_user_miss_reads_or_provisions
    (l : link) (user_id : string) (r : store) (tbl : gmap string string) :
  get_raises l = false ->
  delete_raises l = false ->
  (forall text, read (now l) r ("user:" +:+ user_id) = Some text ->
                text <> "" -> forall u, deserialize text <> Ok u) ->
  let user := mkUser user_id (match tbl !! user_id with
                              | Some n => n
                              | None => "John Doe"
                              end) in
  let after := snd (GET_user l user_id (State (Some r) tbl)) in
  fst (GET_user l user_id (State (Some r) tbl)) = Response 200 user
  /\ users after = match tbl !! user_id with
                   | Some _ => tbl
                   | None => <[user_id := "John Doe"]> tbl
                   end
  /\ (set_raises l = false -> 0 < CACHE_TTL ->
      client after =
        Some (<["user:" +:+ user_id := Entry (User_json user) (now l + CACHE_TTL)]> r)).
Proof.
  intros Hget Hdel Hbad user after. subst user after.
  pose proof (get_cached_user_miss json_loads coerce_str l user_id r tbl
                Hget Hdel Hbad) as Hmiss.
  unfold UserService.GET_user, respond.
  rewrite (get_user_after_miss CACHE_TTL json_loads User_json coerce_str
             _ _ _ _ Hmiss).
  cbn [users client].
  destruct (tbl !! user_id) as [n|]; rewrite cache_user_spec;
    cbn [fst snd client users id];
    (split; [reflexivity|]); (split; [by repeat case_match|]);
    intros Hset Httl; rewrite Hset, (positive_ttl _ Httl); cbn [orb client];
    destruct (truthy _); by rewrite ?insert_delete_eq.
Qed.

(** X12. The user service without a client: whatever the link, each
    handler is the table operation alone and the client stays [None].  GET
    returns the row or provisions the default one, POST inserts or answers
    409, PUT renames or answers 404, DELETE removes or answers 404. *)
Theorem user_service_without_client
    (l : link) (user_id : string) (user : User) (update : UpdateUser)
    (tbl : gmap string string) :
  GET_user l user_id (State None tbl) =
    match tbl !! user_id with
    | Some n => (Response 200 (mkUser user_id n), State None tbl)
    | None => (Response 200 (mkUser user_id "John Doe"),
               State None (<[user_id := "John Doe"]> tbl))
    end
  /\ POST_user l user (State None tbl) =
       match tbl !! id user with
       | Some _ => (ErrorResponse 409 "User already exists", State None tbl)
       | None => (Response 201 user, State None (<[id user := name user]> tbl))
       end
  /\ PUT_user l user_id update (State None tbl) =
       match tbl !! user_id with
       | Some _ => (Response 200 (mkUser user_id (update_name update)),
                    State None (<[user_id := update_name update]> tbl))
       | None => (ErrorResponse 404 "User not found", State None tbl)
       end
  /\ DELETE_user l user_id (State None tbl) =
       match tbl !! user_id with
       | Some _ => (Response 204 tt, State None (base.delete user_id tbl))
       | None => (ErrorResponse 404 "User not found", State None tbl)
       end.
Proof.
  repeat split.
  - unfold UserService.GET_user, respond, UserService.get_user, bind,
      UserRepository.get_user, UserRepository.insert_default_user; cbn.
    destruct (tbl !! user_id) as [n|] eqn:Hrow; cbn; rewrite ?Hrow; reflexivity.
  - unfold UserService.POST_user, respond, create_user, bind, try_except,
      UserRepository.create_user; cbn.
    destruct user as [i n]; cbn. by destruct (tbl !! i).
  - unfold UserService.PUT_user, respond, update_user, bind,
      UserRepository.update_user; cbn.
    by destruct (tbl !! user_id).
  - unfold DELETE_user, respond, delete_user, bind,
      UserRepository.delete_user; cbn.
    by destruct (tbl !! user_id).
Qed.

(** X13. The user service with a client whose server is unreachable (GET,
    SET and DEL all raise): GET /user/{id} answers 500 and changes nothing,
    while POST, PUT and DELETE answer as they do without a cache, update the
    table and leave the store as it was. *)
Theorem user_service_with_unreachable_backend
    (l : link) (user_id : string) (user : User) (update : UpdateUser)
    (r : store) (tbl : gmap string string) :
  get_raises l = true -> set_raises l = true -> delete_raises l = true ->
  GET_user l user_id (State (Some r) tbl) = (InternalServerError, State (Some r) tbl)
  /\ POST_user l user (State (Some r) tbl) =
       match tbl !! id user with
       | Some _ => (ErrorResponse 409 "User already exists", State (Some r) tbl)
       | None => (Response 201 user, State (Some r) (<[id user := name user]> tbl))
       end
  /\ PUT_user l user_id update (State (Some r) tbl) =
       match tbl !! user_id with
       | Some _ => (Response 200 (mkUser user_id (update_name update)),
                    State (Some r) (<[user_id := update_name update]> tbl))
       | None => (ErrorResponse 404 "User not found", State (Some r) tbl)
       end
  /\ DELETE_user l user_id (State (Some r) tbl) =
       match tbl !! user_id with
       | Some _ => (Response 204 tt, State (Some r) (base.delete user_id tbl))
       | None => (ErrorResponse 404 "User not found", State (Some r) tbl)
       end.
Proof.
  intros Hget Hset Hdel. repeat split.
  - unfold UserService.GET_user, respond, UserService.get_user, bind,
      UserService.get_cached_user, GET, get; cbn.
    by rewrite Hget.
  - unfold UserService.POST_user, respond, create_user, bind, try_except,
      UserRepository.create_user, UserService.cache_user, SET, set; cbn.
    destruct user as [i n]; cbn. destruct (tbl !! i); [reflexivity|].
    cbn. by rewrite Hset.
  - unfold UserService.PUT_user, respond, update_user, bind,
      UserRepository.update_user, UserService.cache_user, try_except, SET, set; cbn.
    destruct (tbl !! user_id); [|reflexivity]. cbn. by rewrite Hset.
  - unfold DELETE_user, respond, delete_user, bind,
      UserRepository.delete_user, delete_cached_user, try_except, DEL, delete; cbn.
    destruct (tbl !! user_id); [|reflexivity]. cbn. by rewrite Hdel.
Qed.

(** The state POST and PUT leave when the row is written. *)
Lemma POST_user_created l user s :
  users s !! id user = None ->
  POST_user l user s =
    (Response 201 user,
     snd (cache_user l user (State (client s) (<[id user := name user]> (users s))))).
Proof.
  intros Hrow. apply respond_Ok.
  unfold create_user, bind, try_except, UserRepository.create_user, lift, ret.
  rewrite Hrow, User_of_row. destruct user as [i n]; cbn [id name].
  by rewrite cache_user_spec.
Qed.

Lemma PUT_user_updated l user_id update s n :
  users s !! user_id = Some n ->
  PUT_user l user_id update s =
    (Response 200 (mkUser user_id (update_name update)),
     snd (cache_user l (mkUser user_id (update_name update))
            (State (client s) (<[user_id := update_name update]> (users s))))).
Proof.
  intros Hrow. apply respond_Ok.
  unfold update_user, bind, UserRepository.update_user, lift, ret.
  rewrite Hrow, User_of_row. by rewrite cache_user_spec.
Qed.

Lemma read_expired_or_value t (r : store) k v e :
  r !! k = Some (Entry v e) -> read t r k = None \/ read t r k = Some v.
Proof. intros Hlook. unfold read. rewrite Hlook. destruct (live t _); auto. Qed.

(** A GET after the table and the cache agree on the user: the entry, if
    there is a client, is what cache_user wrote for the row. *)
Lemma GET_user_agreeing l user_id n (c : option store) tbl :
  get_raises l = false ->
  tbl !! user_id = Some n ->
  (forall r, c = Some r ->
             exists e, r !! ("user:" +:+ user_id) =
                         Some (Entry (User_json (mkUser user_id n)) e)) ->
  deserialize (User_json (mkUser user_id n)) = Ok (mkUser user_id n) ->
  User_json (mkUser user_id n) <> "" ->
  fst (GET_user l user_id (State c tbl)) = Response 200 (mkUser user_id n).
Proof.
  intros Hget Hrow Hentry Hround Hne.
  unfold UserService.GET_user, respond.
  destruct c as [r|].
  - destruct (Hentry r eq_refl) as [e Hlook].
    destruct (read_expired_or_value (now l) r _ _ e Hlook) as [Hread|Hread].
    + rewrite (get_user_after_miss CACHE_TTL json_loads User_json coerce_str
                 l user_id _ (State (Some r) tbl)).
      * cbn [users]. rewrite Hrow. by rewrite cache_user_spec.
      * apply get_cached_user_absent; [exact Hget | by rewrite Hread].
    + unfold UserService.get_user, bind.
      by rewrite (get_cached_user_hit json_loads coerce_str l user_id r tbl
                    _ _ Hget Hread Hne Hround).
  - rewrite (get_user_after_miss CACHE_TTL json_loads User_json coerce_str
               l user_id _ (State None tbl)) by reflexivity.
    cbn [users]. rewrite Hrow. by rewrite cache_user_spec.
Qed.

(** X14. What POST created is what GET returns: after a POST /user that
    answered 201, with its SET answering and a positive TTL, a GET for the
    same id returns the posted user, from the cache while the entry is live
    and from the table afterwards, provided the user's JSON text is not
    empty and deserializes back to the user. *)
Theorem POST_then_GET_returns_created (l1 l2 : link) (user : User) (s : state) :
  users s !! id user = None ->
  set_raises l1 = false ->
  0 < CACHE_TTL ->
  get_raises l2 = false ->
  deserialize (User_json user) = Ok user ->
  User_json user <> "" ->
  fst (POST_user l1 user s) = Response 201 user
  /\ fst (GET_user l2 (id user) (snd (POST_user l1 user s))) = Response 200 user.
Proof.
  intros Hrow Hset Httl Hget Hround Hne.
  rewrite (POST_user_created l1 user s Hrow). split; [reflexivity|].
  rewrite cache_user_spec, Hset, (positive_ttl _ Httl); cbn [snd orb client users].
  destruct user as [i n]; cbn [id name] in *.
  destruct (client s) as [r|].
  - apply GET_user_agreeing; try done.
    + apply lookup_insert_eq.
    + intros r' [= <-]. eexists. apply lookup_insert_eq.
  - apply GET_user_agreeing; try done. apply lookup_insert_eq.
Qed.

(** X15. What PUT wrote is what GET returns: after a PUT /user/{id} on an
    existing row, with its SET answering and a positive TTL, a GET for the
    id returns the user with the new name, under the same provision on the
    JSON text. *)
Theorem PUT_then_GET_returns_updated
    (l1 l2 : link) (user_id : string) (update : UpdateUser) (s : state) (n : string) :
  users s !! user_id = Some n ->
  set_raises l1 = false ->
  0 < CACHE_TTL ->
  get_raises l2 = false ->
  let user := mkUser user_id (update_name update) in
  deserialize (User_json user) = Ok user ->
  User_json user <> "" ->
  fst (GET_user l2 user_id (snd (PUT_user l1 user_id update s))) = Response 200 user.
Proof.
  intros Hrow Hset Httl Hget user Hround Hne. subst user.
  rewrite (PUT_user_updated l1 user_id update s n Hrow).
  rewrite cache_user_spec, Hset, (positive_ttl _ Httl); cbn [snd orb client users id].
  destruct (client s) as [r|].
  - apply GET_user_agreeing; try done.
    + apply lookup_insert_eq.
    + intros r' [= <-]. eexists. apply lookup_insert_eq.
  - apply GET_user_agreeing; try done. apply lookup_insert_eq.
Qed.

(** X16. A swallowed cache failure leaves a stale entry that GET serves.
    When user:id holds a live entry that deserializes to [old]: a PUT whose
    SET raises answers 200 with the new name, and a DELETE whose DEL raises
    answers 204, yet the next GET for the id, while the entry is live,
    returns [old] in both cases; after the DELETE the table has no row for
    the id and none is provisioned. *)
Theorem swallowed_cache_failure_serves_stale_user
    (l1 l2 : link) (user_id : string) (update : UpdateUser)
    (r : store) (tbl : gmap string string) (n text : string) (old : User) :
  tbl !! user_id = Some n ->
  get_raises l2 = false ->
  read (now l2) r ("user:" +:+ user_id) = Some text ->
  text <> "" ->
  deserialize text = Ok old ->
  (set_raises l1 = true ->
   let put := PUT_user l1 user_id update (State (Some r) tbl) in
   fst put = Response 200 (mkUser user_id (update_name update))
   /\ fst (GET_user l2 user_id (snd put)) = Response 200 old)
  /\ (delete_raises l1 = true ->
      let deleted := DELETE_user l1 user_id (State (Some r) tbl) in
      let fetched := GET_user l2 user_id (snd deleted) in
      fst deleted = Response 204 tt
      /\ fst fetched = Response 200 old
      /\ users (snd fetched) !! user_id = None).
Proof.
  intros Hrow Hget Hread Hne Hde.
  assert (forall t, GET_user l2 user_id (State (Some r) t) =
                      (Response 200 old, State (Some r) t)) as Hhit.
  { intros t. apply respond_Ok. unfold UserService.get_user, bind.
    by rewrite (get_cached_user_hit json_loads coerce_str l2 user_id r t
                  text old Hget Hread Hne Hde). }
  split.
  - intros Hset put. subst put.
    rewrite (PUT_user_updated l1 user_id update (State (Some r) tbl) n Hrow).
    rewrite cache_user_spec, Hset; cbn [fst snd orb client users].
    by rewrite Hhit.
  - intros Hdel deleted fetched. subst fetched deleted.
    assert (DELETE_user l1 user_id (State (Some r) tbl) =
              (Response 204 tt, State (Some r) (base.delete user_id tbl))) as ->.
    { apply respond_Ok. unfold delete_user, bind, UserRepository.delete_user.
      cbn [users]. rewrite Hrow, delete_cached_user_spec. cbn. by rewrite Hdel. }
    cbn [fst snd]. rewrite Hhit. cbn [fst snd users].
    repeat split. apply lookup_delete_eq.
Qed.

Lemma users_cache_user l u s : users (snd (cache_user l u s)) = users s.
Proof. rewrite cache_user_spec. cbn. by repeat case_match. Qed.

Lemma DELETE_user_removed l user_id s n :
  users s !! user_id = Some n ->
  fst (DELETE_user l user_id s) = Response 204 tt
  /\ users (snd (DELETE_user l user_id s)) = base.delete user_id (users s).
Proof.
  intros Hrow.
  unfold DELETE_user, respond, delete_user, bind, UserRepository.delete_user.
  rewrite Hrow, delete_cached_user_spec. cbn. by repeat case_match.
Qed.

(** X17. An id is taken from its creation to its deletion and free again
    afterwards.  After a POST that created the row, another POST with the
    same id answers 409 and the row keeps the first name; after a DELETE of
    the row, PUT and DELETE for the id answer 404 and a POST with the id
    answers 201 again.  None of this depends on the cache or the link. *)
Theorem id_is_taken_until_deleted
    (l1 l2 l3 l4 : link) (user other : User) (update : UpdateUser) (s : state) :
  users s !! id user = None ->
  id other = id user ->
  let created := snd (POST_user l1 user s) in
  let deleted := snd (DELETE_user l3 (id user) created) in
  fst (POST_user l2 other created) = ErrorResponse 409 "User already exists"
  /\ users (snd (POST_user l2 other created)) !! id user = Some (name user)
  /\ fst (DELETE_user l3 (id user) created) = Response 204 tt
  /\ fst (PUT_user l4 (id user) update deleted) = ErrorResponse 404 "User not found"
  /\ fst (DELETE_user l4 (id user) deleted) = ErrorResponse 404 "User not found"
  /\ fst (POST_user l4 other deleted) = Response 201 other.
Proof.
  intros Hfree Hsame created deleted.
  assert (users created = <[id user := name user]> (users s)) as Hcreated.
  { subst created. rewrite (POST_user_created l1 user s Hfree). cbn [snd].
    by rewrite users_cache_user. }
  assert (users created !! id user = Some (name user)) as Hrow
    by (rewrite Hcreated; apply lookup_insert_eq).
  assert (POST_user l2 other created =
            (ErrorResponse 409 "User already exists", created)) as Hconflict.
  { unfold UserService.POST_user, respond, create_user, bind, try_except,
      UserRepository.create_user.
    by rewrite Hsame, Hrow. }
  destruct (DELETE_user_removed l3 (id user) created (name user) Hrow)
    as [Hno_content Hdeleted].
  fold deleted in Hdeleted.
  assert (users deleted !! id user = None) as Hgone
    by (rewrite Hdeleted; apply lookup_delete_eq).
  rewrite Hconflict; cbn [fst snd].
  repeat split; try done.
  - unfold UserService.PUT_user, respond, update_user, bind,
      UserRepository.update_user.
    by rewrite Hgone.
  - unfold DELETE_user, respond, delete_user, bind, UserRepository.delete_user.
    by rewrite Hgone.
  - rewrite <- Hsame in Hgone. by rewrite (POST_user_created l4 other deleted Hgone).
Qed.

Lemma same_elsewhere_refl uid s : same_elsewhere uid s s.
Proof. split; [done|]. by destruct (client s). Qed.

Lemma same_elsewhere_trans uid s1 s2 s3 :
  same_elsewhere uid s1 s2 -> same_elsewhere uid s2 s3 -> same_elsewhere uid s1 s3.
Proof.
  intros [Htbl12 Hc12] [Htbl23 Hc23]. split.
  - intros other Hother. by rewrite Htbl23, Htbl12.
  - destruct (client s1), (client s2), (client s3); try done.
    intros k Hk. by rewrite Hc23, Hc12.
Qed.

Lemma same_elsewhere_row uid s tbl' :
  (forall other, other <> uid -> tbl' !! other = users s !! other) ->
  same_elsewhere uid s (State (client s) tbl').
Proof. intros Htbl. split; [exact Htbl|]. cbn. by destruct (client s). Qed.

Lemma same_elsewhere_cache_user l u s :
  same_elsewhere (id u) s (snd (cache_user l u s)).
Proof.
  rewrite cache_user_spec. destruct s as [[r|] tbl]; cbn; [|done].
  destruct (set_raises l || (CACHE_TTL <=? 0)); split; try done.
  intros k Hk. cbn. by rewrite lookup_insert_ne.
Qed.

Lemma same_elsewhere_delete_cached_user l uid s :
  same_elsewhere uid s (snd (delete_cached_user l uid s)).
Proof.
  rewrite delete_cached_user_spec. destruct s as [[r|] tbl]; cbn; [|done].
  destruct (delete_raises l); split; try done.
  intros k Hk. cbn. by rewrite lookup_delete_ne.
Qed.

Lemma same_elsewhere_get_cached_user l uid s :
  same_elsewhere uid s (snd (get_cached_user l uid s)).
Proof.
  destruct s as [[r|] tbl]; [|apply same_elsewhere_refl].
  unfold UserService.get_cached_user, bind, try_except, GET, DEL, get, delete,
    lift, ret; cbn.
  repeat (case_match; simplify_eq/=); split; try done;
    intros k Hk; by rewrite ?lookup_delete_ne.
Qed.

(** X18. A request about one id touches that id only: after GET, POST,
    PUT or DELETE for an id, however the request ends, every other row of
    the table and every cache key but user:id are as before, and a client
    is neither gained nor lost. *)
Theorem handlers_touch_one_user
    (l : link) (user_id : string) (user : User) (update : UpdateUser) (s : state) :
  let untouched := fun (uid : string) (s' : state) =>
    (forall other, other <> uid -> users s' !! other = users s !! other)
    /\ match client s, client s' with
       | Some r, Some r' => forall k, k <> "user:" +:+ uid -> r' !! k = r !! k
       | None, None => True
       | _, _ => False
       end in
  untouched user_id (snd (GET_user l user_id s))
  /\ untouched (id user) (snd (POST_user l user s))
  /\ untouched user_id (snd (PUT_user l user_id update s))
  /\ untouched user_id (snd (DELETE_user l user_id s)).
Proof.
  intros untouched.
  change (same_elsewhere user_id s (snd (GET_user l user_id s))
          /\ same_elsewhere (id user) s (snd (POST_user l user s))
          /\ same_elsewhere user_id s (snd (PUT_user l user_id update s))
          /\ same_elsewhere user_id s (snd (DELETE_user l user_id s))).
  split; [|split; [|split]].
  - pose proof (same_elsewhere_get_cached_user l user_id s) as Hcached.
    unfold UserService.GET_user, respond.
    destruct (get_cached_user l user_id s) as [[[u|]|e] s'] eqn:Hcall;
      cbn [snd] in Hcached.
    + unfold UserService.get_user, bind. rewrite Hcall. exact Hcached.
    + rewrite (get_user_after_miss CACHE_TTL json_loads User_json coerce_str
                 _ _ _ _ Hcall).
      apply (same_elsewhere_trans _ _ s' _ Hcached).
      destruct (users s' !! user_id) eqn:Hrow; cbn [fst snd].
      * apply (same_elsewhere_cache_user l (mkUser user_id _)).
      * eapply same_elsewhere_trans;
          [|apply (same_elsewhere_cache_user l (mkUser user_id _))].
        apply same_elsewhere_row. intros other Hother.
        by rewrite lookup_insert_ne.
    + unfold UserService.get_user, bind. rewrite Hcall.
      destruct e; exact Hcached.
  - destruct (users s !! id user) as [n|] eqn:Hrow.
    + unfold UserService.POST_user, respond, create_user, bind, try_except,
        UserRepository.create_user.
      rewrite Hrow. apply same_elsewhere_refl.
    + rewrite (POST_user_created l user s Hrow). cbn [snd].
      eapply same_elsewhere_trans; [|apply same_elsewhere_cache_user].
      apply same_elsewhere_row. intros other Hother. by rewrite lookup_insert_ne.
  - destruct (users s !! user_id) as [n|] eqn:Hrow.
    + rewrite (PUT_user_updated l user_id update s n Hrow). cbn [snd].
      eapply same_elsewhere_trans;
        [|apply (same_elsewhere_cache_user l (mkUser user_id _))].
      apply same_elsewhere_row. intros other Hother. by rewrite lookup_insert_ne.
    + unfold UserService.PUT_user, respond, update_user, bind,
        UserRepository.update_user.
      rewrite Hrow. apply same_elsewhere_refl.
  - unfold DELETE_user, respond, delete_user, bind, UserRepository.delete_user.
    destruct (users s !! user_id) as [n|] eqn:Hrow.
    + pose proof (same_elsewhere_delete_cached_user l user_id
                    (State (client s) (base.delete user_id (users s)))) as Hdel.
      rewrite delete_cached_user_spec in Hdel |- *. cbn [fst snd] in Hdel |- *.
      eapply same_elsewhere_trans; [|exact Hdel].
      apply same_elsewhere_row. intros other Hother. by rewrite lookup_delete_ne.
    + apply same_elsewhere_refl.
Qed.

Lemma validate_rows (rows : list (string * string)) :
  validate_all coerce_str ((fun kv => row kv.1 kv.2) <$> rows) =
    Ok ((fun kv => mkUser kv.1 kv.2) <$> rows).
Proof.
  induction rows as [|[i n] rows IH]; [reflexivity|].
  cbn [fmap list_fmap validate_all] in *. cbn [fst snd].
  by rewrite User_of_row, IH.
Qed.

(** X19. GET /users lists the table and nothing else: the answer is 200
    with one user per row, no id twice, a user being listed exactly when
    the table maps its id to its name; the cache is not consulted (client
    and link do not matter) and the state is not changed. *)
Theorem GET_users_lists_the_table (s : state) :
  exists listing,
    GET_users s = (Response 200 listing, s)
    /\ NoDup (id <$> listing)
    /\ forall u, u ∈ listing <-> users s !! id u = Some (name u).
Proof.
  exists ((fun kv => mkUser kv.1 kv.2) <$> map_to_list (users s)).
  split; [|split].
  - apply respond_Ok. unfold list_users, bind, UserRepository.list_users, lift.
    by rewrite validate_rows.
  - rewrite <- list_fmap_compose.
    apply (NoDup_fst_map_to_list (users s)).
  - intros [i n]. rewrite list_elem_of_fmap. cbn [id name]. split.
    + intros ([i' n'] & [= -> ->] & Hin). by apply elem_of_map_to_list.
    + intros Hrow. exists (i, n). split; [reflexivity|].
      by apply elem_of_map_to_list.
Qed.

End UserServiceMore.

(** * Failures that are not swallowed *)

Section Discard.
Import Redis.
Variable RATES_TTL USERS_TTL : Z.
Variable API_URL : string.
Variable json_dumps : json -> string.
Variable json_loads : string -> option json.
Variable User_json : UserService.User -> string.
Variable coerce_str : json -> option string.

(** X20. The DEL that discards a corrupt entry is not guarded: when a live,
    non-empty entry does not deserialize and DEL raises, get_cached_rate
    raises ConnectionError without asking the upstream and GET /user/{id}
    answers 500 without reading the table; the entry stays. *)
Theorem failed_discard_fails_the_request (l : link) (r : store) (text : string) :
  get_raises l = false ->
  delete_raises l = true ->
  text <> "" ->
  (forall base http,
     read (now l) r ("rates:" +:+ base) = Some text ->
     json_loads text = None ->
     RateService.get_cached_rate RATES_TTL API_URL json_dumps json_loads
       l http base (Some r) = (Raise ConnectionError, Some r))
  /\ (forall user_id tbl,
        read (now l) r ("user:" +:+ user_id) = Some text ->
        (forall u, UserService.deserialize json_loads coerce_str text <> Ok u) ->
        UserService.GET_user USERS_TTL json_loads User_json coerce_str
          l user_id (UserService.State (Some r) tbl) =
          (UserService.InternalServerError, UserService.State (Some r) tbl)).
Proof.
  intros Hget Hdel Hne. split.
  - intros base http Hread Hbad.
    unfold RateService.get_cached_rate, bind, try_except, GET, DEL, get, delete,
      RateService.loads, raise; cbn.
    by rewrite Hget, Hread, (eqb_empty_false _ Hne), Hbad, Hdel.
  - intros user_id tbl Hread Hbad.
    unfold UserService.GET_user, UserService.respond, UserService.get_user,
      UserService.get_cached_user, bind, try_except, GET, DEL, get, delete,
      lift; cbn.
    rewrite Hget, Hread, (eqb_empty_false _ Hne).
    destruct (UserService.deserialize json_loads coerce_str text) as [u|e] eqn:Hde;
      [by destruct (Hbad u)|].
    by rewrite Hdel.
Qed.

End Discard.

(** * The further properties at concrete inputs *)

Section MoreWitnesses.
Import Redis Sample Scenario.

Local Abbreviation get_cached_rate :=
  (RateService.get_cached_rate CACHE_TTL API_URL Json.dumps Json.loads).
Local Abbreviation get_cotacao_dolar :=
  (RateService.get_cotacao_dolar CACHE_TTL API_URL Json.dumps Json.loads).
Local Abbreviation convert_brl_to_usd :=
  (RateService.convert_brl_to_usd CACHE_TTL API_URL Json.dumps Json.loads).
Local Abbreviation convert_usd_to_brl :=
  (RateService.convert_usd_to_brl CACHE_TTL API_URL Json.dumps Json.loads).
Local Abbreviation GET_user :=
  (UserService.GET_user CACHE_TTL Json.loads Json.User_json Json.strict_str).
Local Abbreviation POST_user :=
  (UserService.POST_user CACHE_TTL Json.User_json Json.strict_str).
Local Abbreviation PUT_user :=
  (UserService.PUT_user CACHE_TTL Json.User_json Json.strict_str).
Local Abbreviation DELETE_user := UserService.DELETE_user.
Local Abbreviation State := UserService.State.
Local Abbreviation Response := UserService.Response.
Local Abbreviation ErrorResponse := UserService.ErrorResponse.

(** A fetch at instant 0, then a call at instant 300 when BRL is at 5.25. *)
Lemma expired_entry_is_refetched_witness :
  let fresh := get_cached_rate (healthy 0) upstream "USD" (Some ∅) in
  get_cached_rate (healthy 300) upstream_later "USD" (snd fresh) =
    (Ok snapshot_later,
     Some (<["rates:USD" := Entry (Json.dumps snapshot_later) (300 + CACHE_TTL)]> ∅)).
Proof.
  apply (expired_entry_is_refetched CACHE_TTL API_URL Json.dumps Json.loads
           "USD" ∅ snapshot snapshot_later (healthy 0) (healthy 300)
           upstream upstream_later);
    try reflexivity.
  intros text Hread. discriminate Hread.
Defined.

Lemma unreachable_backend_fails_rate_requests_witness :
  get_cached_rate (unreachable 0) upstream "USD" (Some ∅) =
    (Raise ConnectionError, Some ∅)
  /\ get_cotacao_dolar (unreachable 0) upstream (Some ∅) =
       (Raise ConnectionError, Some ∅)
  /\ convert_brl_to_usd (unreachable 0) upstream hundred (Some ∅) =
       (Raise ConnectionError, Some ∅)
  /\ convert_usd_to_brl (unreachable 0) upstream hundred (Some ∅) =
       (Raise ConnectionError, Some ∅).
Proof.
  apply (unreachable_backend_fails_rate_requests CACHE_TTL API_URL Json.dumps
           Json.loads (unreachable 0) upstream ∅ "USD" hundred).
  reflexivity.
Defined.


Lemma get_cotacao_dolar_formats_witness :
  fst (get_cotacao_dolar (healthy 0) upstream None) =
    Ok (JDict [("cotacao", JStr "R$5.00")]).
Proof.
  etransitivity.
  - apply (get_cotacao_dolar_formats CACHE_TTL API_URL Json.dumps Json.loads
             (healthy 0) upstream None five
             [("base", JStr "USD"); ("rates", JDict [("BRL", JFloat five)])]
             [("BRL", JFloat five)] (JFloat five));
      reflexivity.
  - vm_compute. reflexivity.
Defined.

(** 100.0 BRL with USD at 0.25. *)
Lemma convert_brl_to_usd_formats_witness :
  fst (convert_brl_to_usd (healthy 0) upstream_brl hundred None) =
    Ok (JDict [("converted_amount", JStr "$25.00")]).
Proof.
  etransitivity.
  - apply (convert_brl_to_usd_formats CACHE_TTL API_URL Json.dumps Json.loads
             (healthy 0) upstream_brl None hundred quarter
             brl_snapshot brl_rates (JFloat quarter));
      reflexivity.
  - vm_compute. reflexivity.
Defined.

Lemma wrong_shape_entry_fails_the_endpoints_witness :
  get_cached_rate (healthy 0) upstream "USD" (Some list_store) =
    (Ok (JList [JInt 1; JInt 2]), Some list_store)
  /\ get_cotacao_dolar (healthy 0) upstream (Some list_store) =
       (Raise AttributeError, Some list_store)
  /\ convert_usd_to_brl (healthy 0) upstream hundred (Some list_store) =
       (Raise AttributeError, Some list_store).
Proof.
  assert (Json.loads "[1, 2]" = Some (JList [JInt 1; JInt 2])) as Hloads
    by (vm_compute; reflexivity).
  apply (wrong_shape_entry_fails_the_endpoints CACHE_TTL API_URL Json.dumps
           Json.loads (healthy 0) upstream list_store "[1, 2]"
           (JList [JInt 1; JInt 2]) hundred eq_refl eq_refl);
    [discriminate | exact Hloads | discriminate].
Defined.

(** At instant 10 the listing of the mixed store shows rates:USD only. *)
Lemma rate_get_cache_lists_live_rate_keys_witness :
  exists listing,
    RateService.get_cache (healthy 10) (Some mixed_store) =
      (Ok (JDict [("cached_rates", JDict listing)]), Some mixed_store)
    /\ NoDup (listing.*1)
    /\ forall k v,
         (k, v) ∈ listing <->
           (exists rest, k = "rates:" +:+ rest)
           /\ exists e, mixed_store !! k = Some e
                        /\ now (healthy 10) < expires_at e /\ v = JStr (value e).
Proof.
  apply (rate_get_cache_lists_live_rate_keys (healthy 10) mixed_store);
    reflexivity.
Defined.

Lemma user_get_cache_lists_live_user_keys_witness :
  exists listing,
    UserService.get_cache (healthy 10) (State (Some mixed_store) ∅) =
      (Ok (JDict [("cached_users", JDict listing)]), State (Some mixed_store) ∅)
    /\ NoDup (listing.*1)
    /\ forall k v,
         (k, v) ∈ listing <->
           (exists rest, k = "user:" +:+ rest)
           /\ exists e, mixed_store !! k = Some e
                        /\ now (healthy 10) < expires_at e /\ v = JStr (value e).
Proof.
  apply (proj2 (user_get_cache_lists_live_user_keys (healthy 10) mixed_store ∅));
    reflexivity.
Defined.

Lemma fetched_rates_show_in_the_listing_witness :
  let fresh := get_cached_rate (healthy 0) upstream "USD" (Some ∅) in
  exists listing,
    RateService.get_cache (healthy 10) (snd fresh) =
      (Ok (JDict [("cached_rates", JDict listing)]), snd fresh)
    /\ ("rates:USD", JStr (Json.dumps snapshot)) ∈ listing.
Proof.
  apply (fetched_rates_show_in_the_listing CACHE_TTL API_URL Json.dumps Json.loads
           "USD" ∅ snapshot (healthy 0) (healthy 10) upstream);
    try reflexivity.
  intros text Hread. discriminate Hread.
Defined.

(** 7 is absent; 42 is Alice's row, cached, and DEL raises. *)
Lemma DELETE_user_missing_or_removed_witness :
  DELETE_user (healthy 0) "7" (State (Some alice_cached) {["42" := "Alice"]}) =
    (ErrorResponse 404 "User not found", State (Some alice_cached) {["42" := "Alice"]})
  /\ DELETE_user (no_delete 0) "42" (State (Some alice_cached) {["42" := "Alice"]}) =
       (Response 204 tt, State (Some alice_cached) ∅).
Proof.
  split.
  - apply (proj1 (DELETE_user_missing_or_removed (healthy 0) "7"
                    (State (Some alice_cached) {["42" := "Alice"]}))).
    reflexivity.
  - etransitivity.
    + apply (proj2 (DELETE_user_missing_or_removed (no_delete 0) "42"
                      (State (Some alice_cached) {["42" := "Alice"]})) "Alice").
      reflexivity.
    + vm_compute. reflexivity.
Defined.

(** The cache is empty and the table has no row for 42. *)
Lemma GET_user_miss_reads_or_provisions_witness :
  let after := snd (GET_user (healthy 0) "42" (State (Some ∅) ∅)) in
  fst (GET_user (healthy 0) "42" (State (Some ∅) ∅)) =
    Response 200 (UserService.mkUser "42" "John Doe")
  /\ UserService.users after = {["42" := "John Doe"]}
  /\ UserService.client after =
       Some {["user:42" :=
                Entry (Json.User_json (UserService.mkUser "42" "John Doe")) 300]}.
Proof.
  assert (forall text, read (now (healthy 0)) ∅ ("user:" +:+ "42") = Some text ->
                       text <> "" ->
                       forall u, UserService.deserialize Json.loads Json.strict_str
                                   text <> Ok u) as Hnothing
    by (intros text Hread; discriminate Hread).
  destruct (GET_user_miss_reads_or_provisions CACHE_TTL Json.loads Json.User_json
              Json.strict_str (healthy 0) "42" ∅ ∅ eq_refl eq_refl Hnothing)
    as (Hresponse & Htable & Hcache).
  split; [exact Hresponse|]. split; [exact Htable|].
  exact (Hcache eq_refl eq_refl).
Defined.

Lemma user_service_with_unreachable_backend_witness :
  GET_user (unreachable 0) "42" (State (Some ∅) {["42" := "Alice"]}) =
    (UserService.InternalServerError, State (Some ∅) {["42" := "Alice"]})
  /\ PUT_user (unreachable 0) "42" (UserService.mkUpdateUser "Bob")
       (State (Some ∅) {["42" := "Alice"]}) =
       (Response 200 bob, State (Some ∅) {["42" := "Bob"]}).
Proof.
  destruct (user_service_with_unreachable_backend CACHE_TTL Json.loads
              Json.User_json Json.strict_str (unreachable 0) "42" alice
              (UserService.mkUpdateUser "Bob") ∅ {["42" := "Alice"]}
              eq_refl eq_refl eq_refl)
    as (Hget & _ & Hput & _).
  split; [exact Hget|].
  etransitivity; [exact Hput | vm_compute; reflexivity].
Defined.

Lemma alice_round_trip :
  UserService.deserialize Json.loads Json.strict_str (Json.User_json alice) = Ok alice
  /\ Json.User_json alice <> "".
Proof. split; [vm_compute; reflexivity | vm_compute; discriminate]. Qed.

(** Alice is posted at instant 0 and read at instant 10. *)
Lemma POST_then_GET_returns_created_witness :
  fst (POST_user (healthy 0) alice (State (Some ∅) ∅)) = Response 201 alice
  /\ fst (GET_user (healthy 10) "42"
            (snd (POST_user (healthy 0) alice (State (Some ∅) ∅)))) =
       Response 200 alice.
Proof.
  apply (POST_then_GET_returns_created CACHE_TTL Json.loads Json.User_json
           Json.strict_str (healthy 0) (healthy 10) alice (State (Some ∅) ∅));
    try reflexivity; apply alice_round_trip.
Defined.

(** Bob is renamed to Alice at instant 0 and read at instant 10. *)
Lemma PUT_then_GET_returns_updated_witness :
  fst (GET_user (healthy 10) "42"
         (snd (PUT_user (healthy 0) "42" (UserService.mkUpdateUser "Alice")
                 (State (Some ∅) {["42" := "Bob"]})))) =
    Response 200 alice.
Proof.
  apply (PUT_then_GET_returns_updated CACHE_TTL Json.loads Json.User_json
           Json.strict_str (healthy 0) (healthy 10) "42"
           (UserService.mkUpdateUser "Alice") (State (Some ∅) {["42" := "Bob"]})
           "Bob");
    try reflexivity; apply alice_round_trip.
Defined.

(** Alice is cached; the rename to Bob cannot write and the delete cannot
    remove her entry. *)
Lemma swallowed_cache_failure_serves_stale_user_witness :
  (let put := PUT_user (read_only 0) "42" (UserService.mkUpdateUser "Bob")
                (State (Some alice_cached) {["42" := "Alice"]}) in
   fst put = Response 200 bob
   /\ fst (GET_user (healthy 10) "42" (snd put)) = Response 200 alice)
  /\ (let deleted := DELETE_user (no_delete 0) "42"
                       (State (Some alice_cached) {["42" := "Alice"]}) in
      let fetched := GET_user (healthy 10) "42" (snd deleted) in
      fst deleted = Response 204 tt
      /\ fst fetched = Response 200 alice
      /\ UserService.users (snd fetched) !! "42" = None).
Proof.
  assert (read (now (healthy 10)) alice_cached "user:42" = Some (Json.User_json alice))
    as Hread by (vm_compute; reflexivity).
  assert (({["42" := "Alice"]} : gmap string string) !! "42" = Some "Alice")
    as Hrow by reflexivity.
  destruct alice_round_trip as [Hround Hne].
  destruct (swallowed_cache_failure_serves_stale_user CACHE_TTL Json.loads
              Json.User_json Json.strict_str (read_only 0) (healthy 10) "42"
              (UserService.mkUpdateUser "Bob") alice_cached {["42" := "Alice"]}
              "Alice" (Json.User_json alice) alice
              Hrow eq_refl Hread Hne Hround)
    as [Hput _].
  destruct (swallowed_cache_failure_serves_stale_user CACHE_TTL Json.loads
              Json.User_json Json.strict_str (no_delete 0) (healthy 10) "42"
              (UserService.mkUpdateUser "Bob") alice_cached {["42" := "Alice"]}
              "Alice" (Json.User_json alice) alice
              Hrow eq_refl Hread Hne Hround)
    as [_ Hdelete].
  split; [exact (Hput eq_refl) | exact (Hdelete eq_refl)].
Defined.

(** Alice takes 42; Bob cannot; once she is deleted he can. *)
Lemma id_is_taken_until_deleted_witness :
  let created := snd (POST_user (healthy 0) alice (State (Some ∅) ∅)) in
  let deleted := snd (DELETE_user (healthy 2) "42" created) in
  fst (POST_user (healthy 1) bob created) = ErrorResponse 409 "User already exists"
  /\ UserService.users (snd (POST_user (healthy 1) bob created)) !! "42" = Some "Alice"
  /\ fst (DELETE_user (healthy 2) "42" created) = Response 204 tt
  /\ fst (PUT_user (healthy 3) "42" (UserService.mkUpdateUser "Bob") deleted) =
       ErrorResponse 404 "User not found"
  /\ fst (DELETE_user (healthy 3) "42" deleted) = ErrorResponse 404 "User not found"
  /\ fst (POST_user (healthy 3) bob deleted) = Response 201 bob.
Proof.
  apply (id_is_taken_until_deleted CACHE_TTL Json.User_json Json.strict_str
           (healthy 0) (healthy 1) (healthy 2) (healthy 3) alice bob
           (UserService.mkUpdateUser "Bob") (State (Some ∅) ∅));
    reflexivity.
Defined.

(** Both corrupt entries are read on a link where DEL raises. *)
Lemma failed_discard_fails_the_request_witness :
  get_cached_rate (no_delete 0) upstream "USD" (Some corrupt_store) =
    (Raise ConnectionError, Some corrupt_store)
  /\ GET_user (no_delete 0) "42" (State (Some corrupt_store) {["42" := "Alice"]}) =
       (UserService.InternalServerError,
        State (Some corrupt_store) {["42" := "Alice"]}).
Proof.
  assert ("not json" <> "") as Hne by discriminate.
  destruct (failed_discard_fails_the_request CACHE_TTL CACHE_TTL API_URL
              Json.dumps Json.loads Json.User_json Json.strict_str
              (no_delete 0) corrupt_store "not json" eq_refl eq_refl Hne)
    as [Hrate Huser].
  split.
  - apply (Hrate "USD" upstream); reflexivity.
  - apply (Huser "42" {["42" := "Alice"]}); [reflexivity|].
    intros u Hu. vm_compute in Hu. discriminate Hu.
Defined.

End MoreWitnesses.
